(** * mTutor student engagement dashboard (app.py)

    A shallow embedding of the synthetic data generator [load_dummy_data]
    and of the filter / KPI / chart script that follows it.

    Modelling conventions.
    - A calendar day (a [datetime.date], or a pandas [Timestamp] at midnight)
      is its day number, an integer; [dt.date.today()] is the explicit
      argument [today].
    - Python integers are [Z]; [//] is [Z.div] (both floor).
    - A float is the rational it denotes, or NaN ([float64]). The
      arithmetic of the generator ([low + (high - low) * u]) rounds as
      binary64 does ([rnd]); the reductions of pandas (sum, mean, median)
      are taken exactly.
    - numpy's [Generator] is an interface ([Generator]) with the contract of
      its documentation ([GeneratorLaws]); [rng.uniform(low, high)] is
      [low + (high - low) * rng.random()], as numpy computes it. [Toy] and
      [Edge] are two lawful instances on which the definitions can be
      evaluated.
    - A DataFrame is the list of its rows over the six generated columns,
      plus the optional [session_bucket] column the script attaches.
    - DataFrames are objects: variables hold references into a heap, a
      selection [df[mask]] is a new object and a column assignment updates
      its object in place.
    - Streamlit calls append to a log of widgets; a metric is logged with
      the number it shows, not with the text [f"{x:.1f}"] makes of it.
    - The script leaves [observed] of [groupby] to pandas, whose default
      changed with pandas 3.0; the default is the parameter
      [groupby_observed] of the script. *)

From stdpp Require Import gmap strings list pretty sorting.
From Stdlib Require Import ZArith QArith Qround Qpower Lia Lqa.

Local Open Scope Z_scope.

(** ** Values, exceptions, rows *)

Inductive float64 : Type :=
| Finite (q : Q)
| NaN.

Inductive exn : Type :=
| ValueError (msg : string)
| KeyError (msg : string)
| ReferenceError (msg : string).

Inductive result (A : Type) : Type :=
| Ok (a : A)
| Raise (e : exn).
Arguments Ok {A} a.
Arguments Raise {A} e.

Record Row : Type := mkRow {
  date : Z;
  course : string;
  student_id : Z;
  session_minutes : float64;
  quiz_score : float64;
  completed : bool
}.

(** A categorical column of intervals, as [pd.cut] returns it: the ordered
    categories, and per row a category or a missing value. *)
Record Interval : Type := mkInterval { left : Z; right : Z }.

Record Categorical : Type := mkCategorical {
  categories : list Interval;
  codes : list (option Interval)
}.

(** A frame holds the six generated columns, and the [session_bucket]
    column once the script has attached it: row by row, so that every
    column has the length of the frame. *)
Inductive DataFrame : Type :=
| Frame (rs : list Row)
| BucketFrame (cats : list Interval) (rs : list (Row * option Interval)).

Definition rows (df : DataFrame) : list Row :=
  match df with
  | Frame rs => rs
  | BucketFrame _ rs => map fst rs
  end.

Definition session_bucket (df : DataFrame) : option Categorical :=
  match df with
  | Frame _ => None
  | BucketFrame cats rs => Some {| categories := cats; codes := map snd rs |}
  end.

Definition from_records (records : list Row) : DataFrame := Frame records.

(** ** Binary64 arithmetic

    An operation on floats is the exact operation followed by [rnd]: to the
    nearest float, ties to even, with 53 significant bits, and on the grid
    of 2^-1074 below 2^-1022. Overflow to infinity is not modelled. *)

(** To the nearest integer, ties to even. *)
Definition rne (a : Q) : Z :=
  let f := Qfloor a in
  match (2 * (a - inject_Z f) ?= 1)%Q with
  | Lt => f
  | Gt => f + 1
  | Eq => if Z.even f then f else f + 1
  end.

(** The binary exponent of [x > 0]: [2 ^ binade x <= x < 2 ^ (binade x + 1)]. *)
Definition binade (x : Q) : Z :=
  let e := Z.log2 (Qnum x) - Z.log2 (Z.pos (Qden x)) in
  if Qle_bool (2 ^ e) x then e else e - 1.

(** The exponent of the smallest normal float, and the bits of a float's
    fraction. *)
Definition emin : Z := -1022.
Definition fraction_bits : Z := 52.

(** The exponent of the unit in the last place of the floats around
    [x > 0]. *)
Definition ulp_exponent (x : Q) : Z := Z.max (binade x) emin - fraction_bits.

Definition round_pos (x : Q) : Q :=
  let e := ulp_exponent x in
  Qred (inject_Z (rne (x / 2 ^ e)) * 2 ^ e).

Definition rnd (x : Q) : Q :=
  match (x ?= 0)%Q with
  | Gt => round_pos x
  | Eq => 0%Q
  | Lt => (- round_pos (- x))%Q
  end.

Definition fl_add (x y : Q) : Q := rnd (x + y).
Definition fl_sub (x y : Q) : Q := rnd (x - y).
Definition fl_mul (x y : Q) : Q := rnd (x * y).

(** ** numpy.random.Generator

    The methods the generator calls, each taking and returning the bit
    generator's state:
    [integers low high] is [rng.integers(low=low, high=high)],
    [choice n size] is [rng.choice(np.arange(n), size=size, replace=False)],
    [random] is [rng.random()]: 53 bits of the next word, over 2^53. *)

Class Generator (G : Type) : Type := {
  default_rng : Z -> G;
  integers : Z -> Z -> G -> result (Z * G);
  choice : Z -> Z -> G -> result (list Z * G);
  random : G -> Q * G
}.

(** [rng.uniform(low, high)]: numpy returns
    [low + (high - low) * rng.random()], computed on floats. *)
Definition uniform {G : Type} `{Generator G} (low high : Q) (g : G) : Q * G :=
  let '(u, g) := random g in
  (fl_add low (fl_mul (fl_sub high low) u), g).

Class GeneratorLaws (G : Type) `{Generator G} : Prop := {
  integers_range : forall low high g,
    low < high ->
    exists v g', integers low high g = Ok (v, g') /\ low <= v < high;
  integers_empty : forall low high g,
    high <= low -> integers low high g = Raise (ValueError "low >= high");
  choice_distinct : forall n size g,
    0 <= size <= n ->
    exists ids g', choice n size g = Ok (ids, g') /\
      Z.of_nat (length ids) = size /\ NoDup ids /\
      Forall (fun s => 0 <= s < n) ids;
  random_range : forall g,
    exists k, 0 <= k < 2 ^ 53 /\
      (fst (random g) == inject_Z k / inject_Z (2 ^ 53))%Q
}.

(** ** 1. Synthetic data generator *)

(** [pd.date_range(start=start, periods=periods, freq="D")]: [periods]
    consecutive days from [start]; no day when [periods] is not positive. *)
Definition date_range (start : Z) (periods : Z) : list Z :=
  map (fun i => start + Z.of_nat i) (seq 0 (Z.to_nat periods)).

(** [range(n)], also [np.arange(n)]: 0, ..., n - 1. *)
Definition range (n : Z) : list Z :=
  map Z.of_nat (seq 0 (Z.to_nat n)).

(** [f"Course‑{i + 1}"] *)
Definition course_name (i : Z) : string := "Course‑" +:+ pretty (i + 1).

(** [x < y] on floats that are not NaN. *)
Definition Qltb (x y : Q) : bool := negb (Qle_bool y x).

Section Generate.
Context {G : Type} `{Generator G}.

(** [for s in ids: ...]: three draws per id, one record appended. *)
Fixpoint for_ids (d : Z) (c : string) (ids : list Z)
    (rng : G) (records : list Row) : G * list Row :=
  match ids with
  | [] => (rng, records)
  | s :: ids' =>
      let '(session_minutes, rng) := uniform 3%Q 45%Q rng in
      let '(quiz_score, rng) := uniform 40%Q 100%Q rng in
      let '(u, rng) := random rng in
      let completed := Qltb u (rnd 0.05%Q) in
      for_ids d c ids' rng
        (records ++ [mkRow d c s (Finite session_minutes)
                       (Finite quiz_score) completed])
  end.

(** [for c in course_list: ...] *)
Fixpoint for_courses (students : Z) (d : Z) (cs : list string)
    (rng : G) (records : list Row) : result (G * list Row) :=
  match cs with
  | [] => Ok (rng, records)
  | c :: cs' =>
      match integers 10 (students / 3) rng with
      | Raise e => Raise e
      | Ok (active, rng) =>
          match choice students active rng with
          | Raise e => Raise e
          | Ok (ids, rng) =>
              let '(rng, records) := for_ids d c ids rng records in
              for_courses students d cs' rng records
          end
      end
  end.

(** [for d in dates: ...] *)
Fixpoint for_dates (students : Z) (course_list : list string)
    (ds : list Z) (rng : G) (records : list Row) : result (G * list Row) :=
  match ds with
  | [] => Ok (rng, records)
  | d :: ds' =>
      match for_courses students d course_list rng records with
      | Raise e => Raise e
      | Ok (rng, records) => for_dates students course_list ds' rng records
      end
  end.

Definition load_dummy_data (today : Z) (days courses students : Z)
    : result DataFrame :=
  let rng := default_rng 42 in
  let start_date := today - (days - 1) in
  let dates := date_range start_date days in
  let course_list := map course_name (range courses) in
  match for_dates students course_list dates rng [] with
  | Raise e => Raise e
  | Ok (_, records) => Ok (from_records records)
  end.

(** [@st.cache_data]: the table is computed on the first call for a
    parameter triple and served from the cache afterwards. *)
Definition load_dummy_data_cached (cache : gmap (Z * Z * Z) DataFrame)
    (today : Z) (days courses students : Z)
    : result DataFrame * gmap (Z * Z * Z) DataFrame :=
  match cache !! (days, courses, students) with
  | Some df => (Ok df, cache)
  | None =>
      match load_dummy_data today days courses students with
      | Ok df => (Ok df, <[(days, courses, students) := df]> cache)
      | Raise e => (Raise e, cache)
      end
  end.
End Generate.

(** ** A lawful generator to evaluate with

    The state is a counter; every draw advances it by one. *)
Module Toy.
Definition draw_integers (low high : Z) (g : Z) : result (Z * Z) :=
  if low <? high then Ok (low + g mod (high - low), g + 1)
  else Raise (ValueError "low >= high").

Definition draw_choice (n size : Z) (g : Z) : result (list Z * Z) :=
  if (0 <=? size) && (size <=? n) then Ok (range size, g + 1)
  else Raise (ValueError "Cannot take a larger sample than population").

Definition draw_random (g : Z) : Q * Z := ((g mod 8 # 8)%Q, g + 1).

#[global] Instance generator : Generator Z :=
  {| default_rng := fun seed => seed;
     integers := draw_integers;
     choice := draw_choice;
     random := draw_random |}.
End Toy.

(** ** A lawful generator at the top of the range

    It has no state; every [random()] is the largest value there is,
    1 - 2^-53. *)
Module Edge.
Definition top_integers (low high : Z) (g : unit) : result (Z * unit) :=
  if low <? high then Ok (low, g)
  else Raise (ValueError "low >= high").

Definition top_choice (n size : Z) (g : unit) : result (list Z * unit) :=
  if (0 <=? size) && (size <=? n) then Ok (range size, g)
  else Raise (ValueError "Cannot take a larger sample than population").

Definition top_random (g : unit) : Q * unit :=
  ((9007199254740991 # 9007199254740992)%Q, g).

#[global] Instance top_generator : Generator unit :=
  {| default_rng := fun seed => tt;
     integers := top_integers;
     choice := top_choice;
     random := top_random |}.
End Edge.

(** ** pandas: Series reductions *)

(** [sorted(l)] and [sort_values]: a stable sort, by insertion. *)
Fixpoint insert_sorted {A : Type} (leb : A -> A -> bool) (x : A) (l : list A)
    : list A :=
  match l with
  | [] => [x]
  | y :: l' => if leb x y then x :: l else y :: insert_sorted leb x l'
  end.

Definition sorted {A : Type} (leb : A -> A -> bool) (l : list A) : list A :=
  foldr (insert_sorted leb) [] l.

(** The valid values of a float column. *)
Definition dropna (xs : list float64) : list Q :=
  omap (fun x => match x with Finite q => Some q | NaN => None end) xs.

Definition Qsum (v : list Q) : Q := foldr Qplus 0%Q v.

(** [Series.mean()] (skipna): NaN on a series with no valid value. *)
Definition mean (xs : list float64) : float64 :=
  match dropna xs with
  | [] => NaN
  | v => Finite (Qsum v / inject_Z (Z.of_nat (length v)))%Q
  end.

(** [Series.median()] (skipna): NaN on a series with no valid value. *)
Definition median (xs : list float64) : float64 :=
  let v := sorted Qle_bool (dropna xs) in
  let n := length v in
  match v with
  | [] => NaN
  | _ =>
      if Nat.odd n then Finite (nth (n / 2)%nat v 0%Q)
      else Finite ((nth (n / 2 - 1)%nat v 0%Q + nth (n / 2)%nat v 0%Q) / 2)%Q
  end.

(** [Series.nunique()] *)
Definition nunique (xs : list Z) : Z := Z.of_nat (length (remove_dups xs)).

(** A boolean column read as numbers, as [mean] does. *)
Definition bool_to_float (b : bool) : float64 :=
  Finite (if b then 1 else 0)%Q.

(** [x * k]; NaN stays NaN. *)
Definition fmul (x : float64) (k : Q) : float64 :=
  match x with
  | Finite q => Finite (q * k)%Q
  | NaN => NaN
  end.

(** [Series.min()] and [Series.max()] of a date column: NaT on no rows. *)
Definition date_min (ds : list Z) : option Z :=
  match ds with
  | [] => None
  | d :: ds' => Some (foldr Z.min d ds')
  end.

Definition date_max (ds : list Z) : option Z :=
  match ds with
  | [] => None
  | d :: ds' => Some (foldr Z.max d ds')
  end.

(** ** pandas: cut and grouping *)

#[global] Instance Interval_eq_dec : EqDecision Interval.
Proof. solve_decision. Defined.

(** The categories of a cut: one interval per pair of neighbouring edges. *)
Fixpoint intervals (bins : list Z) : list Interval :=
  match bins with
  | lo :: ((hi :: _) as bins') => mkInterval lo hi :: intervals bins'
  | _ => []
  end.

(** [bins.searchsorted(x, side="left")] on ascending [bins]: the number of
    edges strictly below [x]. *)
Definition searchsorted_left (bins : list Z) (x : Q) : nat :=
  length (List.filter (fun b => Qltb (inject_Z b) x) bins).

(** One cell of [pd.cut(series, bins)] with the defaults [right=True],
    [include_lowest=False]: index 0 and index [len(bins)] are missing. *)
Definition cut_value (bins : list Z) (x : float64) : option Interval :=
  match x with
  | NaN => None
  | Finite q =>
      let i := searchsorted_left bins q in
      if (i =? 0)%nat || (i =? length bins)%nat then None
      else intervals bins !! (i - 1)%nat
  end.

Definition cut (xs : list float64) (bins : list Z) : Categorical :=
  {| categories := intervals bins; codes := map (cut_value bins) xs |}.

(** [str(interval)], as [astype(str)] renders a category. *)
Definition interval_str (c : Interval) : string :=
  "(" +:+ pretty (left c) +:+ ", " +:+ pretty (right c) +:+ "]".

(** The values of [vals] on the rows whose key is the category [c]. *)
Definition group_values (keys : list (option Interval)) (vals : list float64)
    (c : Interval) : list float64 :=
  map snd (List.filter (fun kv => bool_decide (kv.1 = Some c)) (zip keys vals)).

(** The category [c] occurs among the keys. *)
Definition observed_group (keys : list (option Interval)) (c : Interval)
    : bool :=
  bool_decide (Some c ∈ keys).

(** [groupby([key])[col].mean().reset_index()] on a categorical key: rows
    with a missing key are dropped; groups come in category order; with
    [observed] false every category is listed, with it true only those
    that occur. *)
Definition groupby_mean (observed : bool) (key : Categorical)
    (vals : list float64) : list (Interval * float64) :=
  map (fun c => (c, mean (group_values (codes key) vals c)))
      (if observed then List.filter (observed_group (codes key)) (categories key)
       else categories key).

(** [groupby("date")["student_id"].nunique().reset_index()]: one line per
    date that occurs, dates ascending. *)
Definition groupby_date_nunique (rs : list Row) : list (Z * Z) :=
  map (fun d =>
         (d, nunique (map student_id
                        (List.filter (fun r => date r =? d) rs))))
      (sorted Z.leb (remove_dups (map date rs))).

(** ** DataFrame objects *)

(** [df["session_bucket"] = col]: the column replaces an earlier one of
    that name; its length has to be the frame's. *)
Definition set_session_bucket (df : DataFrame) (col : Categorical)
    : result DataFrame :=
  if (length (codes col) =? length (rows df))%nat
  then Ok (BucketFrame (categories col) (zip (rows df) (codes col)))
  else Raise (ValueError "Length of values does not match length of index").

(** [df[mask]] with a boolean mask: a new frame with the rows kept, every
    column restricted alike. *)
Definition getitem_mask (mask : Row -> bool) (df : DataFrame) : DataFrame :=
  match df with
  | Frame rs => Frame (List.filter mask rs)
  | BucketFrame cats rs => BucketFrame cats (List.filter (fun rc => mask rc.1) rs)
  end.

(** [(data["date"] >= pd.Timestamp(from_date)) &
     (data["date"] <= pd.Timestamp(to_date))] *)
Definition date_mask (from_date to_date : Z) (r : Row) : bool :=
  (from_date <=? date r) && (date r <=? to_date).

(** [filtered["course"].isin(selected_courses)] *)
Definition isin (selected_courses : list string) (r : Row) : bool :=
  bool_decide (course r ∈ selected_courses).

(** [df.empty] *)
Definition empty (df : DataFrame) : bool :=
  match rows df with
  | [] => true
  | _ => false
  end.

(** ** The script: Streamlit calls over a heap of DataFrame objects

    What the page shows is a log of widgets; a metric is logged with the
    value it formats. The values the sidebar widgets return are the user's
    choices, [Inputs]. *)

Inductive MetricValue : Type :=
| IntValue (n : Z)
| FloatValue (x : float64).

Inductive Widget : Type :=
| SidebarHeader (body : string)
| SidebarDateInput (label : string) (value min_value max_value : option Z)
| SidebarError (body : string)
| SidebarMultiselect (label : string) (options default : list string)
| Title (body : string)
| Columns (n : Z)
| Metric (label : string) (value : MetricValue)
| Divider
| LineChart (title : string) (points : list (Z * Z))
| BoxChart (title : string) (points : list (string * float64))
| BarChart (title : string) (bars : list (string * float64))
| Subheader (body : string)
| Markdown (body : string)
| Caption (body : string).

Record Inputs : Type := mkInputs {
  from_date : Z;
  to_date : Z;
  selected_courses : list string
}.

Abbreviation loc := positive.

Record Session : Type := mkSession {
  heap : gmap positive DataFrame;
  ui : list Widget
}.

Definition Script (A : Type) : Type := Session -> result (A * Session).

Definition ret {A : Type} (a : A) : Script A := fun s => Ok (a, s).

Definition bind {A B : Type} (m : Script A) (k : A -> Script B) : Script B :=
  fun s =>
    match m s with
    | Ok (a, s') => k a s'
    | Raise e => Raise e
    end.

Definition raise {A : Type} (e : exn) : Script A := fun _ => Raise e.

Declare Scope script_scope.
Delimit Scope script_scope with script.
Notation "x <- m ;; k" := (bind m (fun x => k))
  (at level 100, m at next level, right associativity) : script_scope.
Notation "m ;; k" := (bind m (fun _ => k))
  (at level 100, right associativity) : script_scope.
Local Open Scope script_scope.

Definition emit (w : Widget) : Script unit :=
  fun s => Ok (tt, {| heap := heap s; ui := ui s ++ [w] |}).

(** A new object at an address not in use. *)
Definition new_frame (df : DataFrame) : Script loc :=
  fun s =>
    let l := fresh (dom (heap s)) in
    Ok (l, {| heap := <[l := df]> (heap s); ui := ui s |}).

Definition frame (l : loc) : Script DataFrame :=
  fun s =>
    match heap s !! l with
    | Some df => Ok (df, s)
    | None => Raise (ReferenceError "no such object")
    end.

(** [df[mask]]: the selection is a new object. *)
Definition getitem (l : loc) (mask : Row -> bool) : Script loc :=
  df <- frame l ;;
  new_frame (getitem_mask mask df).

(** [df["session_bucket"] = col]: the object at [l] is updated in place. *)
Definition setitem_session_bucket (l : loc) (col : Categorical)
    : Script unit :=
  fun s =>
    match heap s !! l with
    | Some df =>
        match set_session_bucket df col with
        | Ok df' => Ok (tt, {| heap := <[l := df']> (heap s); ui := ui s |})
        | Raise e => Raise e
        end
    | None => Raise (ReferenceError "no such object")
    end.

(** [df.groupby(["session_bucket"])]: the column has to exist. *)
Definition getitem_session_bucket (l : loc) : Script Categorical :=
  df <- frame l ;;
  match session_bucket df with
  | Some col => ret col
  | None => raise (KeyError "session_bucket")
  end.

Record KPIs : Type := mkKPIs {
  dau : Z;
  median_session : float64;
  completion_rate : float64;
  mean_quiz : float64
}.

Record Outputs : Type := mkOutputs {
  filtered : loc;
  kpi : KPIs;
  active_daily : list (Z * Z);
  heat : list (string * float64)
}.

Section Dashboard.
(** The default of [observed] in [DataFrame.groupby], which the script
    leaves to pandas: false before pandas 3.0, true from 3.0 on. *)
Variable groupby_observed : bool.

(** Apply filters: the date range always, the course selection when it is
    not empty. *)
Definition apply_filters (from_date to_date : Z)
    (selected_courses : list string) (data : loc) : Script loc :=
  filtered <- getitem data (date_mask from_date to_date) ;;
  match selected_courses with
  | [] => ret filtered
  | _ :: _ => getitem filtered (isin selected_courses)
  end.

(** 3. KPIs *)
Definition kpis (filtered : loc) : Script KPIs :=
  emit (Title "📊 Student Engagement Dashboard – Demo") ;;
  emit (Columns 4) ;;
  f <- frame filtered ;;
  let dau := nunique (map student_id (rows f)) in
  emit (Metric "Daily Active Users" (IntValue dau)) ;;
  let median_session := median (map session_minutes (rows f)) in
  emit (Metric "Median Session (min)" (FloatValue median_session)) ;;
  let completion_rate :=
    if negb (empty f)
    then fmul (mean (map (fun r => bool_to_float (completed r)) (rows f))) 100
    else Finite 0 in
  emit (Metric "Completion %" (FloatValue completion_rate)) ;;
  let mean_quiz := mean (map quiz_score (rows f)) in
  emit (Metric "Avg Quiz Score" (FloatValue mean_quiz)) ;;
  emit Divider ;;
  ret {| dau := dau; median_session := median_session;
         completion_rate := completion_rate; mean_quiz := mean_quiz |}.

(** 4. Charts *)
Definition charts (filtered : loc)
    : Script (list (Z * Z) * list (string * float64)) :=
  f <- frame filtered ;;
  let active_daily :=
    sorted (fun x y => x.1 <=? y.1) (groupby_date_nunique (rows f)) in
  emit (LineChart "Daily Active Users Over Time" active_daily) ;;
  emit (BoxChart "Session Duration Distribution by Course (min)"
          (map (fun r => (course r, session_minutes r)) (rows f))) ;;
  setitem_session_bucket filtered
    (cut (map session_minutes (rows f)) [0; 5; 10; 20; 30; 60]) ;;
  key <- getitem_session_bucket filtered ;;
  f <- frame filtered ;;
  let heat := groupby_mean groupby_observed key (map quiz_score (rows f)) in
  let heat := map (fun bm => (interval_str bm.1, bm.2)) heat in
  emit (BarChart "Avg Quiz Score by Session Length Bucket" heat) ;;
  emit (Subheader "Module Progression Flow – Placeholder") ;;
  emit (Markdown "*(Add real Sankey when module sequencing data is available.)*") ;;
  ret (active_daily, heat).

(** Sections 2 to 5 of the script, on the object [data]. *)
Definition dashboard (inp : Inputs) (data : loc) : Script Outputs :=
  emit (SidebarHeader "Filters") ;;
  d <- frame data ;;
  let min_date := date_min (map date (rows d)) in
  let max_date := date_max (map date (rows d)) in
  emit (SidebarDateInput "From" min_date min_date max_date) ;;
  emit (SidebarDateInput "To" max_date min_date max_date) ;;
  (if from_date inp >? to_date inp
   then emit (SidebarError "'From' date must not be after 'To' date.")
   else ret tt) ;;
  let course_options := sorted String.leb (remove_dups (map course (rows d))) in
  emit (SidebarMultiselect "Course(s)" course_options course_options) ;;
  filtered <- apply_filters (from_date inp) (to_date inp)
                (selected_courses inp) data ;;
  k <- kpis filtered ;;
  ch <- charts filtered ;;
  emit (Caption "Demo dashboard generated with synthetic data. © 2025 mTutor") ;;
  ret {| filtered := filtered; kpi := k;
         active_daily := ch.1; heat := ch.2 |}.

(** The whole script: [data = load_dummy_data()] with the defaults, then
    the page. *)
Definition app {G : Type} `{Generator G} (today : Z) (inp : Inputs)
    : result (Outputs * Session) :=
  match load_dummy_data today 90 5 400 with
  | Raise e => Raise e
  | Ok df =>
      (data <- new_frame df ;; dashboard inp data)
        {| heap := ∅; ui := [] |}
  end.
End Dashboard.

(** * Vocabulary of the properties *)

(** The triple that identifies a record. *)
Definition key (r : Row) : Z * string * Z := (date r, course r, student_id r).

(** [low <= x < high] *)
Definition in_interval (low high : Q) (x : float64) : Prop :=
  match x with
  | Finite q => (low <= q)%Q /\ (q < high)%Q
  | NaN => False
  end.

(** A record, and a table, [k] days later. *)
Definition shift_date (k : Z) (r : Row) : Row :=
  mkRow (date r + k) (course r) (student_id r) (session_minutes r)
    (quiz_score r) (completed r).

Definition shift_dates (k : Z) (df : DataFrame) : DataFrame :=
  match df with
  | Frame rs => Frame (map (shift_date k) rs)
  | BucketFrame cats rs =>
      BucketFrame cats (map (fun rc => (shift_date k rc.1, rc.2)) rs)
  end.

Definition result_map {A B : Type} (f : A -> B) (r : result A) : result B :=
  match r with
  | Ok a => Ok (f a)
  | Raise e => Raise e
  end.

(** [low <= x <= high] *)
Definition in_closed (low high : Q) (x : float64) : Prop :=
  match x with
  | Finite q => (low <= q)%Q /\ (q <= high)%Q
  | NaN => False
  end.

(** The largest value of [rng.random()]. *)
Definition random_max : Q := 9007199254740991 # 9007199254740992.

(** What the three loops promise of a record they append. *)
Definition drawn (d : Z) (c : string) (r : Row) : Prop :=
  date r = d /\ course r = c /\
  in_interval 3 45 (session_minutes r) /\ in_closed 40 100 (quiz_score r).

(** The state of the loops, generator and records, [k] days later. *)
Definition shift_state {G : Type} (k : Z) (st : G * list Row)
    : G * list Row :=
  (st.1, map (shift_date k) st.2).

(** One pass over the courses: what a successful pass appended. *)
Definition appended (students : Z) (ds : list Z) (cs : list string)
    (new : list Row) : Prop :=
  Forall (fun r => In (date r) ds /\ In (course r) cs /\
                   0 <= student_id r < students /\
                   drawn (date r) (course r) r) new /\
  (NoDup ds -> NoDup cs -> NoDup (map key new)).


(** The rows of one (date, course) pair. *)
Definition pair_rows (d : Z) (c : string) (rs : list Row) : list Row :=
  List.filter (fun r => bool_decide (date r = d /\ course r = c)) rs.

(** The contents of the frame the filter block leaves in [filtered]. *)
Definition filter_frame (from_date to_date : Z)
    (selected_courses : list string) (df : DataFrame) : DataFrame :=
  match selected_courses with
  | [] => getitem_mask (date_mask from_date to_date) df
  | _ :: _ =>
      getitem_mask (isin selected_courses)
        (getitem_mask (date_mask from_date to_date) df)
  end.

(** Every object of [s] is still there, unchanged, in [s']. *)
Definition preserved (s s' : Session) : Prop :=
  forall l df, heap s !! l = Some df -> heap s' !! l = Some df.

(** The edges the script cuts [session_minutes] at. *)
Definition bins : list Z := [0; 5; 10; 20; 30; 60].

(** The message of [st.sidebar.error]. *)
Definition error_text : string := "'From' date must not be after 'To' date.".

(** The rows the claim says are kept. *)
Definition kept (from_date to_date : Z) (selected_courses : list string)
    (r : Row) : Prop :=
  from_date <= date r <= to_date /\
  (selected_courses = [] \/ course r ∈ selected_courses).

#[global] Instance kept_dec (from_date to_date : Z)
    (selected_courses : list string) (r : Row) :
  Decision (kept from_date to_date selected_courses r).
Proof. unfold kept. apply _. Defined.

(** The same as one mask. *)
Definition keeps (from_date to_date : Z) (selected_courses : list string)
    (r : Row) : bool :=
  date_mask from_date to_date r &&
  match selected_courses with
  | [] => true
  | _ :: _ => isin selected_courses r
  end.

(** A heap for examples: one frame of three rows at address 1. *)
Definition r1 : Row := mkRow 5 "Course‑1" 7 (Finite 4) (Finite 80) false.
Definition r2 : Row := mkRow 6 "Course‑2" 7 (Finite 12) (Finite 60) true.
Definition r3 : Row := mkRow 6 "Course‑1" 9 (Finite 5) (Finite 70) false.

Definition session0 : Session :=
  {| heap := {[1%positive := Frame [r1; r2; r3]]}; ui := [] |}.

(** The buckets as the specification lists them: (0,5], (5,10], (10,20],
    (20,30], (30,60]. *)
Definition buckets : list Interval :=
  [mkInterval 0 5; mkInterval 5 10; mkInterval 10 20; mkInterval 20 30;
   mkInterval 30 60].

(** [left < x <= right] *)
Definition in_interval_oc (c : Interval) (x : float64) : bool :=
  match x with
  | Finite q => Qltb (inject_Z (left c)) q && Qle_bool q (inject_Z (right c))
  | NaN => false
  end.

(** The session of [r] falls in the bucket [c]. *)
Definition in_bucket (c : Interval) (r : Row) : bool :=
  in_interval_oc c (session_minutes r).

(** The aggregate in the specification's words: per bucket the mean quiz
    score of the rows that fall in it; with [observed] only the buckets
    that have a row. *)
Definition quiz_by_session_bucket (observed : bool) (rs : list Row)
    : list (string * float64) :=
  map (fun c => (interval_str c,
                 mean (map quiz_score (List.filter (in_bucket c) rs))))
      (if observed then List.filter (fun c => existsb (in_bucket c) rs) buckets
       else buckets).

(** The records of one (date, course) pair, as one pass of the inner loop
    appends them: all of that pair, between 10 and [students // 3 - 1] of
    them. *)
Definition block (students d : Z) (c : string) (blk : list Row) : Prop :=
  Forall (drawn d c) blk /\ 10 <= Z.of_nat (length blk) < students / 3.

(** A table made of one block per pair, in the order of the pairs. *)
Inductive pair_blocks (students : Z) : list (Z * string) -> list Row -> Prop :=
| pair_blocks_nil : pair_blocks students [] []
| pair_blocks_cons d c pairs blk new :
    block students d c blk ->
    pair_blocks students pairs new ->
    pair_blocks students ((d, c) :: pairs) (blk ++ new).

(** The widget is a sidebar error message. *)
Definition is_error (w : Widget) : Prop :=
  match w with
  | SidebarError _ => True
  | _ => False
  end.

(** * Properties *)

(** ** The evaluation generator meets the contract *)

Lemma range_length (n : Z) : 0 <= n -> Z.of_nat (length (range n)) = n.
Proof.
  intros Hn. unfold range. rewrite length_map, length_seq. lia.
Qed.

Lemma range_NoDup (n : Z) : NoDup (range n).
Proof.
  unfold range. apply (NoDup_fmap_2 Z.of_nat). apply NoDup_seq.
Qed.

Lemma range_bounds (n i : Z) : In i (range n) -> 0 <= i < n.
Proof.
  unfold range. rewrite in_map_iff. intros (k & <- & Hk).
  apply in_seq in Hk. lia.
Qed.


Lemma date_range_NoDup (start periods : Z) : NoDup (date_range start periods).
Proof.
  unfold date_range.
  assert (Inj (=) (=) (fun i : nat => start + Z.of_nat i))
    by (intros i j Hij; lia).
  apply (NoDup_fmap_2 (fun i : nat => start + Z.of_nat i)), NoDup_seq.
Qed.

Lemma toy_random_range (g : Z) :
  exists k, 0 <= k < 2 ^ 53 /\
    (g mod 8 # 8 == inject_Z k / inject_Z (2 ^ 53))%Q.
Proof.
  pose proof (Z.mod_pos_bound g 8 eq_refl) as Hb.
  exists (g mod 8 * 2 ^ 50). split.
  - change (2 ^ 53) with (8 * 2 ^ 50). nia.
  - rewrite Qmake_Qdiv, inject_Z_mult.
    change (inject_Z (2 ^ 53)) with (inject_Z (Z.pos 8) * inject_Z (2 ^ 50))%Q.
    assert (0 < inject_Z (2 ^ 50))%Q by done.
    assert (0 < inject_Z (Z.pos 8))%Q by done.
    field. lra.
Qed.

#[global] Instance toy_laws : GeneratorLaws Z.
Proof.
  split.
  - intros low high g Hlt. simpl. unfold Toy.draw_integers.
    destruct (Z.ltb_spec low high); [|lia].
    eexists _, _. split; [reflexivity|].
    pose proof (Z.mod_pos_bound g (high - low)). lia.
  - intros low high g Hle. simpl. unfold Toy.draw_integers.
    destruct (Z.ltb_spec low high); [lia|reflexivity].
  - intros n size g [H0 Hn]. simpl. unfold Toy.draw_choice.
    destruct (Z.leb_spec 0 size); [|lia].
    destruct (Z.leb_spec size n); [|lia]. simpl.
    eexists _, _. split; [reflexivity|].
    split; [by apply range_length|].
    split; [apply range_NoDup|].
    apply Forall_forall. intros i Hi%list_elem_of_In%range_bounds. lia.
  - intros g. simpl. apply toy_random_range.
Defined.

#[global] Instance top_laws : GeneratorLaws unit.
Proof.
  split.
  - intros low high g Hlt. simpl. unfold Edge.top_integers.
    destruct (Z.ltb_spec low high); [|lia].
    eexists _, _. split; [reflexivity|]. lia.
  - intros low high g Hle. simpl. unfold Edge.top_integers.
    destruct (Z.ltb_spec low high); [lia|reflexivity].
  - intros n size g [H0 Hn]. simpl. unfold Edge.top_choice.
    destruct (Z.leb_spec 0 size); [|lia].
    destruct (Z.leb_spec size n); [|lia]. simpl.
    eexists _, _. split; [reflexivity|].
    split; [by apply range_length|].
    split; [apply range_NoDup|].
    apply Forall_forall. intros i Hi%list_elem_of_In%range_bounds. lia.
  - intros g. simpl. exists (2 ^ 53 - 1). split; [done|]. done.
Defined.

(** ** Rounding is monotone *)

Lemma rne_floor (a : Q) : Qfloor a <= rne a <= Qfloor a + 1.
Proof.
  unfold rne. destruct (Qcompare_spec (2 * (a - inject_Z (Qfloor a))) 1);
    [destruct (Z.even (Qfloor a))|..]; lia.
Qed.

Lemma rne_mono (a b : Q) : (a <= b)%Q -> rne a <= rne b.
Proof.
  intros Hab. pose proof (Qfloor_resp_le a b Hab) as Hfl.
  destruct (Z.eq_dec (Qfloor a) (Qfloor b)) as [Heq|Hne].
  - unfold rne. rewrite <- Heq.
    destruct (Qcompare_spec (2 * (a - inject_Z (Qfloor a))) 1) as [Ha|Ha|Ha];
      destruct (Qcompare_spec (2 * (b - inject_Z (Qfloor a))) 1) as [Hb|Hb|Hb];
      try (destruct (Z.even (Qfloor a))); try lia; exfalso; lra.
  - pose proof (rne_floor a). pose proof (rne_floor b). lia.
Qed.

Lemma rne_le_int (a : Q) (N : Z) : (a <= inject_Z N)%Q -> rne a <= N.
Proof.
  intros Ha. pose proof (Qfloor_resp_le _ _ Ha) as Hfl. rewrite Qfloor_Z in Hfl.
  destruct (Z.eq_dec (Qfloor a) N) as [Heq|Hne].
  - unfold rne. rewrite Heq. pose proof (Qfloor_le a) as Hle. rewrite Heq in Hle.
    destruct (Qcompare_spec (2 * (a - inject_Z N)) 1) as [Hc|Hc|Hc];
      try lia; exfalso; lra.
  - pose proof (rne_floor a). lia.
Qed.

Lemma rne_ge_int (a : Q) (N : Z) : (inject_Z N <= a)%Q -> N <= rne a.
Proof.
  intros Ha. pose proof (Qfloor_resp_le _ _ Ha) as Hfl. rewrite Qfloor_Z in Hfl.
  pose proof (rne_floor a). lia.
Qed.

Lemma inject_Z_pos (z : Z) : 0 < z -> (0 < inject_Z z)%Q.
Proof. intros Hz. rewrite Zlt_Qlt in Hz. exact Hz. Qed.


Lemma pow2_pos (e : Z) : (0 < 2 ^ e)%Q.
Proof. by apply Qpower_0_lt. Qed.

Lemma pow2_succ (e : Z) : (2 ^ (e + 1) == 2 * 2 ^ e)%Q.
Proof. rewrite Qpower_plus by done. change (2 ^ 1)%Q with 2%Q. ring. Qed.

Lemma pow2_le (n m : Z) : n <= m -> (2 ^ n <= 2 ^ m)%Q.
Proof. intros Hnm. by apply Qpower_le_compat_l. Qed.

Lemma pow2_inject (n : Z) : 0 <= n -> (inject_Z (2 ^ n) == 2 ^ n)%Q.
Proof. intros Hn. by rewrite Zpower_Qpower. Qed.

Lemma binade_spec (x : Q) :
  (0 < x)%Q -> (2 ^ binade x <= x)%Q /\ (x < 2 ^ (binade x + 1))%Q.
Proof.
  intros Hx. unfold binade.
  destruct x as [n d]. simpl Qnum. simpl Qden.
  assert (0 < n) as Hn by (unfold Qlt in Hx; simpl in Hx; lia).
  destruct (Z.log2_spec n Hn) as [Hn1 Hn2].
  destruct (Z.log2_spec (Z.pos d) eq_refl) as [Hd1 Hd2].
  set (ln := Z.log2 n) in *. set (ld := Z.log2 (Z.pos d)) in *.
  assert (0 <= ln) as Hln by apply Z.log2_nonneg.
  assert (0 <= ld) as Hld by apply Z.log2_nonneg.
  rewrite Z.pow_succ_r in Hn2, Hd2 by done.
  rewrite Zle_Qle in Hn1, Hd1. rewrite Zlt_Qlt in Hn2, Hd2.
  rewrite inject_Z_mult in Hn2, Hd2.
  rewrite pow2_inject in Hn1, Hn2, Hd1, Hd2 by done.
  change (inject_Z 2) with 2%Q in *.
  assert (2 ^ (ln - ld) * 2 ^ ld == 2 ^ ln)%Q as Hsplit.
  { rewrite <- Qpower_plus by done. by replace (ln - ld + ld) with ln by lia. }
  pose proof (pow2_pos ln) as HA. pose proof (pow2_pos ld) as HB.
  pose proof (pow2_pos (ln - ld)) as HT.
  assert (n # d == inject_Z n / inject_Z (Z.pos d))%Q as Hq
    by apply Qmake_Qdiv.
  assert (0 < inject_Z (Z.pos d))%Q as Hdpos by done.
  destruct (Qle_bool (2 ^ (ln - ld)) (n # d)) eqn:Hle.
  - apply Qle_bool_iff in Hle. split; [done|].
    rewrite pow2_succ, Hq. apply Qlt_shift_div_r; [done|].
    set (T := (2 ^ (ln - ld))%Q) in *. set (A := (2 ^ ln)%Q) in *.
    set (B := (2 ^ ld)%Q) in *. nra.
  - assert (n # d < 2 ^ (ln - ld))%Q as Hlt.
    { apply Qnot_le_lt. intros Hc. apply Qle_bool_iff in Hc. congruence. }
    split; [|by replace (ln - ld - 1 + 1) with (ln - ld) by lia].
    assert (2 ^ (ln - ld) == 2 * 2 ^ (ln - ld - 1))%Q as Hhalf.
    { rewrite <- pow2_succ. by replace (ln - ld - 1 + 1) with (ln - ld) by lia. }
    pose proof (pow2_pos (ln - ld - 1)) as HT'.
    rewrite Hq. apply Qle_shift_div_l; [done|].
    set (T := (2 ^ (ln - ld))%Q) in *. set (A := (2 ^ ln)%Q) in *.
    set (B := (2 ^ ld)%Q) in *. set (T' := (2 ^ (ln - ld - 1))%Q) in *. nra.
Qed.

Lemma binade_mono (x y : Q) :
  (0 < x)%Q -> (x <= y)%Q -> binade x <= binade y.
Proof.
  intros Hx Hxy.
  destruct (binade_spec x Hx) as [Hx1 _].
  destruct (binade_spec y) as [_ Hy2]; [lra|].
  assert (2 ^ binade x < 2 ^ (binade y + 1))%Q as Hlt by lra.
  apply Qpower_lt_compat_l_inv in Hlt; [lia|done].
Qed.

Lemma round_pos_nonneg (x : Q) : (0 < x)%Q -> (0 <= round_pos x)%Q.
Proof.
  intros Hx. unfold round_pos. rewrite Qred_correct.
  pose proof (pow2_pos (ulp_exponent x)) as He.
  apply Qmult_le_0_compat; [|lra].
  change 0%Q with (inject_Z 0). rewrite <- Zle_Qle. apply rne_ge_int.
  apply Qle_shift_div_l; [done|]. change (inject_Z 0) with 0%Q. lra.
Qed.

Lemma round_pos_upper (x : Q) :
  (0 < x)%Q -> (round_pos x <= 2 ^ (ulp_exponent x + fraction_bits + 1))%Q.
Proof.
  intros Hx. unfold round_pos. rewrite Qred_correct.
  set (e := ulp_exponent x).
  pose proof (pow2_pos e) as He.
  destruct (binade_spec x Hx) as [_ Hlt].
  assert (2 ^ (binade x + 1) <= 2 ^ (e + fraction_bits + 1))%Q as Hle
    by (apply pow2_le; unfold e, ulp_exponent; lia).
  assert (2 ^ (e + fraction_bits + 1) == inject_Z (2 ^ 53) * 2 ^ e)%Q as Htop.
  { rewrite pow2_inject by done.
    replace (e + fraction_bits + 1) with (53 + e) by (unfold fraction_bits; lia).
    by rewrite Qpower_plus. }
  rewrite Htop. apply Qmult_le_compat_r; [|lra].
  rewrite <- Zle_Qle. apply rne_le_int.
  apply Qle_shift_div_r; [done|]. lra.
Qed.

Lemma round_pos_lower (x : Q) :
  (0 < x)%Q -> emin <= binade x ->
  (2 ^ (ulp_exponent x + fraction_bits) <= round_pos x)%Q.
Proof.
  intros Hx Hnormal. unfold round_pos. rewrite Qred_correct.
  set (e := ulp_exponent x).
  pose proof (pow2_pos e) as He.
  destruct (binade_spec x Hx) as [Hle _].
  assert (e + fraction_bits = binade x) as Heq
    by (unfold e, ulp_exponent; lia).
  assert (2 ^ (e + fraction_bits) == inject_Z (2 ^ 52) * 2 ^ e)%Q as Hbot.
  { rewrite pow2_inject by done.
    replace (e + fraction_bits) with (52 + e) by (unfold fraction_bits; lia).
    by rewrite Qpower_plus. }
  rewrite Hbot. apply Qmult_le_compat_r; [|lra].
  rewrite <- Zle_Qle. apply rne_ge_int.
  apply Qle_shift_div_l; [done|]. rewrite <- Hbot, Heq. done.
Qed.

Lemma round_pos_mono (x y : Q) :
  (0 < x)%Q -> (x <= y)%Q -> (round_pos x <= round_pos y)%Q.
Proof.
  intros Hx Hxy. assert (0 < y)%Q as Hy by lra.
  pose proof (binade_mono x y Hx Hxy) as Hb.
  destruct (Z.eq_dec (ulp_exponent x) (ulp_exponent y)) as [Heq|Hne].
  - unfold round_pos. rewrite !Qred_correct, <- Heq.
    pose proof (pow2_pos (ulp_exponent x)) as He.
    apply Qmult_le_compat_r; [|lra].
    rewrite <- Zle_Qle. apply rne_mono.
    apply Qle_shift_div_l; [done|].
    unfold Qdiv. rewrite <- Qmult_assoc, (Qmult_comm (/ _)), Qmult_inv_r by lra.
    lra.
  - assert (ulp_exponent x < ulp_exponent y) as Hlt
      by (unfold ulp_exponent in *; lia).
    assert (emin <= binade y) as Hnormal by (unfold ulp_exponent in *; lia).
    pose proof (round_pos_upper x Hx) as Hup.
    pose proof (round_pos_lower y Hy Hnormal) as Hlo.
    assert (2 ^ (ulp_exponent x + fraction_bits + 1) <=
            2 ^ (ulp_exponent y + fraction_bits))%Q by (apply pow2_le; lia).
    lra.
Qed.

Lemma rnd_mono (x y : Q) : (x <= y)%Q -> (rnd x <= rnd y)%Q.
Proof.
  intros Hxy. unfold rnd.
  destruct (Qcompare_spec x 0) as [Hx|Hx|Hx];
    destruct (Qcompare_spec y 0) as [Hy|Hy|Hy]; try (exfalso; lra).
  - lra.
  - apply round_pos_nonneg. lra.
  - pose proof (round_pos_nonneg (- x)). lra.
  - pose proof (round_pos_mono (- y) (- x)). lra.
  - pose proof (round_pos_nonneg (- x)). pose proof (round_pos_nonneg y). lra.
  - apply round_pos_mono; lra.
Qed.

(** The two ends of [rng.uniform(3, 45)] and of [rng.uniform(40, 100)]. *)
Lemma session_bottom : (3 <= rnd (3 + rnd (rnd (45 - 3) * 0)))%Q.
Proof. vm_compute. discriminate. Qed.

Lemma session_top : (rnd (3 + rnd (rnd (45 - 3) * random_max)) < 45)%Q.
Proof. vm_compute. reflexivity. Qed.

Lemma quiz_bottom : (40 <= rnd (40 + rnd (rnd (100 - 40) * 0)))%Q.
Proof. vm_compute. discriminate. Qed.

Lemma quiz_top : (rnd (40 + rnd (rnd (100 - 40) * random_max)) <= 100)%Q.
Proof. vm_compute. discriminate. Qed.

Section Uniform.
Context {G : Type} `{GeneratorLaws G}.

Lemma random_unit (g : G) :
  (0 <= fst (random g))%Q /\ (fst (random g) <= random_max)%Q.
Proof.
  destruct (random_range g) as (k & [Hk0 Hk1] & ->).
  assert (k <= 9007199254740991) as Hk by (change (2 ^ 53) with 9007199254740992 in Hk1; lia).
  rewrite Zle_Qle in Hk0, Hk.
  change (inject_Z (2 ^ 53)) with 9007199254740992%Q.
  change (inject_Z 0) with 0%Q in Hk0.
  change (inject_Z 9007199254740991) with 9007199254740991%Q in Hk.
  unfold random_max. rewrite (Qmake_Qdiv 9007199254740991).
  change (inject_Z 9007199254740991) with 9007199254740991%Q.
  change (inject_Z (Z.pos 9007199254740992)) with 9007199254740992%Q.
  split.
  - apply Qle_shift_div_l; lra.
  - apply Qle_shift_div_l; [lra|]. field_simplify. lra.
Qed.

(** A uniform draw lies between the draws the smallest and the largest
    [random()] give. *)
Lemma uniform_between (low high : Q) (g : G) :
  (0 <= fl_sub high low)%Q ->
  (rnd (low + rnd (fl_sub high low * 0)) <= fst (uniform low high g))%Q /\
  (fst (uniform low high g) <=
   rnd (low + rnd (fl_sub high low * random_max)))%Q.
Proof.
  intros Hrange. unfold uniform.
  destruct (random_unit g) as [Hu0 Hu1].
  destruct (random g) as [u g']. simpl in *. unfold fl_add, fl_mul.
  set (r := fl_sub high low) in *.
  split; apply rnd_mono.
  - assert (rnd (r * 0) <= rnd (r * u))%Q by (apply rnd_mono; nra). lra.
  - assert (rnd (r * u) <= rnd (r * random_max))%Q by (apply rnd_mono; nra).
    lra.
Qed.

Lemma uniform_session (g : G) :
  (3 <= fst (uniform 3 45 g))%Q /\ (fst (uniform 3 45 g) < 45)%Q.
Proof.
  destruct (uniform_between 3 45 g) as [Hlo Hhi];
    [vm_compute; discriminate|].
  pose proof session_bottom. pose proof session_top.
  unfold fl_sub in Hlo, Hhi. split; lra.
Qed.

Lemma uniform_quiz (g : G) :
  (40 <= fst (uniform 40 100 g))%Q /\ (fst (uniform 40 100 g) <= 100)%Q.
Proof.
  destruct (uniform_between 40 100 g) as [Hlo Hhi];
    [vm_compute; discriminate|].
  pose proof quiz_bottom. pose proof quiz_top.
  unfold fl_sub in Hlo, Hhi. split; lra.
Qed.
End Uniform.

(** ** The generator *)

Lemma course_name_inj : Inj (=) (=) course_name.
Proof.
  intros i j Hij. unfold course_name in Hij. simpl in Hij.
  simplify_eq; lia.
Qed.

Lemma course_list_NoDup (courses : Z) : NoDup (map course_name (range courses)).
Proof.
  apply (NoDup_fmap_2 course_name (Inj0 := course_name_inj)), range_NoDup.
Qed.

Lemma date_range_shift (start periods k : Z) :
  date_range (start + k) periods = map (fun d => d + k) (date_range start periods).
Proof.
  unfold date_range. rewrite map_map. apply map_ext. intros i. lia.
Qed.

Section Shift.
Context {G : Type} `{Generator G}.

(** The draws do not look at the date: moving the date moves the date
    column and nothing else. *)
Lemma for_ids_shift (k d : Z) (c : string) (ids : list Z) (g : G)
    (recs : list Row) :
  for_ids (d + k) c ids g (map (shift_date k) recs) =
  ((for_ids d c ids g recs).1, map (shift_date k) (for_ids d c ids g recs).2).
Proof.
  revert g recs. induction ids as [|s ids IH]; intros g recs; simpl.
  - reflexivity.
  - destruct (uniform 3%Q 45%Q g) as [sm g1].
    destruct (uniform 40%Q 100%Q g1) as [qs g2].
    destruct (random g2) as [u g3].
    rewrite <- IH. f_equal. rewrite map_app. reflexivity.
Qed.

Lemma for_courses_shift (k students d : Z) (cs : list string) (g : G)
    (recs : list Row) :
  for_courses students (d + k) cs g (map (shift_date k) recs) =
  result_map (shift_state k) (for_courses students d cs g recs).
Proof.
  revert g recs. induction cs as [|c cs IH]; intros g recs; simpl.
  - reflexivity.
  - destruct (integers 10 (students / 3) g) as [[active g1]|e]; [|reflexivity].
    destruct (choice students active g1) as [[ids g2]|e]; [|reflexivity].
    rewrite for_ids_shift.
    destruct (for_ids d c ids g2 recs) as [g3 recs3]. simpl. apply IH.
Qed.

Lemma for_dates_shift (k students : Z) (cs : list string) (ds : list Z)
    (g : G) (recs : list Row) :
  for_dates students cs (map (fun d => d + k) ds) g (map (shift_date k) recs) =
  result_map (shift_state k) (for_dates students cs ds g recs).
Proof.
  revert g recs. induction ds as [|d ds IH]; intros g recs; simpl.
  - reflexivity.
  - rewrite for_courses_shift.
    destruct (for_courses students d cs g recs) as [[g1 recs1]|e];
      [|reflexivity].
    simpl. apply IH.
Qed.

Lemma load_dummy_data_shift (today k days courses students : Z) :
  load_dummy_data (today + k) days courses students =
  result_map (shift_dates k) (load_dummy_data today days courses students).
Proof.
  unfold load_dummy_data.
  replace (today + k - (days - 1)) with (today - (days - 1) + k) by lia.
  rewrite date_range_shift.
  pose proof (for_dates_shift k students
                (map course_name (range courses))
                (date_range (today - (days - 1)) days)
                (default_rng 42) []) as Hs.
  simpl in Hs. rewrite Hs. clear Hs.
  destruct (for_dates _ _ _ _ _) as [[g recs]|e]; reflexivity.
Qed.
End Shift.

Section Contract.
Context {G : Type} `{GeneratorLaws G}.

Lemma for_ids_spec (d : Z) (c : string) (ids : list Z) (g : G)
    (recs : list Row) :
  exists blk,
    (for_ids d c ids g recs).2 = recs ++ blk /\
    map student_id blk = ids /\ Forall (drawn d c) blk.
Proof.
  revert g recs. induction ids as [|s ids IH]; intros g recs; simpl.
  - exists []. by rewrite app_nil_r.
  - pose proof (uniform_session g) as Hsm.
    destruct (uniform 3%Q 45%Q g) as [sm g1].
    pose proof (uniform_quiz g1) as Hqs.
    destruct (uniform 40%Q 100%Q g1) as [qs g2].
    destruct (random g2) as [u g3].
    edestruct IH as (blk & -> & Hids & Hblk).
    eexists (_ :: blk). rewrite <- app_assoc. simpl.
    split; [reflexivity|]. split; [by rewrite Hids|].
    constructor; [|done]. simpl in Hsm, Hqs.
    unfold drawn, in_interval, in_closed. simpl. tauto.
Qed.

Lemma appended_nil (students : Z) (ds : list Z) (cs : list string) :
  appended students ds cs [].
Proof. split; [constructor|]. intros _ _. constructor. Qed.

Lemma block_appended (students d : Z) (c : string) (ids : list Z)
    (blk : list Row) :
  NoDup ids -> Forall (fun s => 0 <= s < students) ids ->
  map student_id blk = ids -> Forall (drawn d c) blk ->
  appended students [d] [c] blk.
Proof.
  intros Hnd Hrange Hids Hblk. split.
  - apply Forall_forall. intros r Hr.
    rewrite Forall_forall in Hblk. rewrite Forall_forall in Hrange.
    destruct (Hblk r Hr) as (Hd & Hc & Hsm & Hqs).
    rewrite Hd, Hc. repeat split; simpl; auto.
    + apply Hrange. rewrite <- Hids. by apply list_elem_of_fmap_2.
    + apply Hrange. rewrite <- Hids. by apply list_elem_of_fmap_2.
  - intros _ _. apply (NoDup_fmap_1 snd).
    rewrite <- Hids in Hnd.
    change (NoDup (map snd (map key blk))). rewrite map_map. exact Hnd.
Qed.

Lemma appended_app_courses (students d : Z) (c : string) (cs : list string)
    (blk new : list Row) :
  appended students [d] [c] blk -> appended students [d] cs new ->
  appended students [d] (c :: cs) (blk ++ new).
Proof.
  intros [Hb Hbnd] [Hn Hnnd]. split.
  - apply Forall_app. split.
    + eapply Forall_impl; [exact Hb|]. simpl. intros r (? & [<-|[]] & ? & ?).
      auto.
    + eapply Forall_impl; [exact Hn|]. simpl. intros r (? & ? & ? & ?). auto.
  - intros Hd Hcs. apply NoDup_cons in Hcs as [Hc Hcs].
    rewrite map_app. apply NoDup_app. split; [|split].
    + apply Hbnd; [done|]. apply NoDup_singleton.
    + intros k Hk1 Hk2. apply list_elem_of_fmap in Hk1 as (r1 & -> & Hr1).
      apply list_elem_of_fmap in Hk2 as (r2 & Hk & Hr2).
      rewrite Forall_forall in Hb. rewrite Forall_forall in Hn.
      destruct (Hb r1 Hr1) as (_ & [Hc1|[]] & _).
      destruct (Hn r2 Hr2) as (_ & Hin & _).
      apply Hc. apply list_elem_of_In.
      assert (c = course r2) as -> by (unfold key in Hk; congruence).
      exact Hin.
    + by apply Hnnd.
Qed.

Lemma appended_app_dates (students d : Z) (ds : list Z) (cs : list string)
    (blk new : list Row) :
  appended students [d] cs blk -> appended students ds cs new ->
  appended students (d :: ds) cs (blk ++ new).
Proof.
  intros [Hb Hbnd] [Hn Hnnd]. split.
  - apply Forall_app. split.
    + eapply Forall_impl; [exact Hb|]. simpl. intros r ([<-|[]] & ? & ? & ?).
      auto.
    + eapply Forall_impl; [exact Hn|]. simpl. intros r (? & ? & ? & ?). auto.
  - intros Hds Hcs. apply NoDup_cons in Hds as [Hd Hds].
    rewrite map_app. apply NoDup_app. split; [|split].
    + apply Hbnd; [apply NoDup_singleton|done].
    + intros k Hk1 Hk2. apply list_elem_of_fmap in Hk1 as (r1 & -> & Hr1).
      apply list_elem_of_fmap in Hk2 as (r2 & Hk & Hr2).
      rewrite Forall_forall in Hb. rewrite Forall_forall in Hn.
      destruct (Hb r1 Hr1) as ([Hd1|[]] & _).
      destruct (Hn r2 Hr2) as (Hin & _).
      apply Hd. apply list_elem_of_In.
      assert (d = date r2) as -> by (unfold key in Hk; congruence).
      exact Hin.
    + by apply Hnnd.
Qed.
End Contract.

Section Loops.
Context {G : Type} `{GeneratorLaws G}.

(** The two draws that open a (date, course) block. *)
Lemma draw_block (students : Z) (g : G) :
  10 < students / 3 ->
  exists active g1 ids g2,
    integers 10 (students / 3) g = Ok (active, g1) /\
    choice students active g1 = Ok (ids, g2) /\
    10 <= active /\ Z.of_nat (length ids) = active /\
    NoDup ids /\ Forall (fun s => 0 <= s < students) ids.
Proof.
  intros Hhigh.
  destruct (integers_range 10 (students / 3) g Hhigh)
    as (active & g1 & Hint & Hlo & Hhi).
  assert (students / 3 <= students) as Hle.
  { assert (0 <= students).
    { destruct (Z.neg_nonneg_cases students) as [Hneg|Hpos]; [|done].
      apply (Z.div_lt_upper_bound students 3 0) in Hneg; lia. }
    apply Z.div_le_upper_bound; lia. }
  destruct (choice_distinct students active g1 ltac:(lia))
    as (ids & g2 & Hch & Hlen & Hnd & Hrange).
  exists active, g1, ids, g2. auto 10.
Qed.

Lemma for_courses_spec (students d : Z) (cs : list string) (g g' : G)
    (recs recs' : list Row) :
  for_courses students d cs g recs = Ok (g', recs') ->
  exists new, recs' = recs ++ new /\ appended students [d] cs new.
Proof.
  revert g recs. induction cs as [|c cs IH]; intros g recs Hrun; simpl in Hrun.
  - exists []. split; [|apply appended_nil]. rewrite app_nil_r. congruence.
  - destruct (Z.lt_ge_cases 10 (students / 3)) as [Hhigh|Hhigh].
    + destruct (draw_block students g Hhigh)
        as (active & g1 & ids & g2 & Hint & Hch & _ & _ & Hnd & Hrange).
      rewrite Hint, Hch in Hrun.
      destruct (for_ids_spec d c ids g2 recs) as (blk & Hblk & Hids & Hdrawn).
      destruct (for_ids d c ids g2 recs) as [g3 recs3]. simpl in Hblk. subst recs3.
      destruct (IH _ _ Hrun) as (new & -> & Hnew).
      exists (blk ++ new). split; [by rewrite app_assoc|].
      apply appended_app_courses; [|done].
      by apply (block_appended students d c ids).
    + rewrite (integers_empty 10 (students / 3) g) in Hrun by lia. discriminate.
Qed.

Lemma for_courses_ok (students d : Z) (cs : list string) (g : G)
    (recs : list Row) :
  10 < students / 3 ->
  exists g' recs', for_courses students d cs g recs = Ok (g', recs').
Proof.
  intros Hhigh. revert g recs.
  induction cs as [|c cs IH]; intros g recs; simpl.
  - by eexists _, _.
  - destruct (draw_block students g Hhigh)
      as (active & g1 & ids & g2 & Hint & Hch & _).
    rewrite Hint, Hch. destruct (for_ids d c ids g2 recs). apply IH.
Qed.

Lemma for_courses_raise (students d : Z) (c : string) (cs : list string)
    (g : G) (recs : list Row) :
  students / 3 <= 10 ->
  for_courses students d (c :: cs) g recs = Raise (ValueError "low >= high").
Proof.
  intros Hhigh. simpl. by rewrite integers_empty.
Qed.

Lemma for_dates_spec (students : Z) (cs : list string) (ds : list Z)
    (g g' : G) (recs recs' : list Row) :
  for_dates students cs ds g recs = Ok (g', recs') ->
  exists new, recs' = recs ++ new /\ appended students ds cs new.
Proof.
  revert g recs. induction ds as [|d ds IH]; intros g recs Hrun; simpl in Hrun.
  - exists []. split; [|apply appended_nil]. rewrite app_nil_r. congruence.
  - destruct (for_courses students d cs g recs) as [[g1 recs1]|e] eqn:Hc;
      [|discriminate].
    apply for_courses_spec in Hc as (blk & -> & Hblk).
    destruct (IH _ _ Hrun) as (new & -> & Hnew).
    exists (blk ++ new). split; [by rewrite app_assoc|].
    by apply appended_app_dates.
Qed.

Lemma for_dates_ok (students : Z) (cs : list string) (ds : list Z) (g : G)
    (recs : list Row) :
  10 < students / 3 ->
  exists g' recs', for_dates students cs ds g recs = Ok (g', recs').
Proof.
  intros Hhigh. revert g recs.
  induction ds as [|d ds IH]; intros g recs; simpl.
  - by eexists _, _.
  - destruct (for_courses_ok students d cs g recs Hhigh) as (g1 & recs1 & ->).
    apply IH.
Qed.

Lemma load_dummy_data_spec (today days courses students : Z)
    (df : DataFrame) :
  load_dummy_data today days courses students = Ok df ->
  session_bucket df = None /\
  appended students (date_range (today - (days - 1)) days)
    (map course_name (range courses)) (rows df).
Proof.
  unfold load_dummy_data. intros Hrun.
  destruct (for_dates _ _ _ _ _) as [[g recs]|e] eqn:Hd; [|discriminate].
  apply for_dates_spec in Hd as (new & -> & Hnew).
  inversion Hrun; subst df. simpl. done.
Qed.

Lemma load_dummy_data_ok (today days courses students : Z) :
  10 < students / 3 ->
  exists df, load_dummy_data today days courses students = Ok df.
Proof.
  intros Hhigh. unfold load_dummy_data.
  destruct (for_dates_ok students (map course_name (range courses))
              (date_range (today - (days - 1)) days) (default_rng 42) [] Hhigh)
    as (g & recs & ->).
  by eexists.
Qed.

End Loops.

(** ** Claims about the generator *)

Lemma shift_dates_0 (df : DataFrame) : shift_dates 0 df = df.
Proof.
  assert (forall r, shift_date 0 r = r) as Hrow.
  { intros [d c s sm qs cp]. unfold shift_date. simpl. by rewrite Z.add_0_r. }
  destruct df as [rs|cats rs]; simpl; f_equal.
  - rewrite <- (map_id rs) at 2. by apply map_ext.
  - rewrite <- (map_id rs) at 2. apply map_ext. intros [r b]. simpl.
    by rewrite Hrow.
Qed.

(** X6: Within one cache a repeated call is served the stored table, whatever
    the day. *)
Lemma load_dummy_data_cached_again {G : Type} `{Generator G}
    (cache : gmap (Z * Z * Z) DataFrame) (today1 today2 : Z)
    (days courses students : Z) (df : DataFrame)
    (cache1 : gmap (Z * Z * Z) DataFrame) :
  load_dummy_data_cached cache today1 days courses students = (Ok df, cache1) ->
  load_dummy_data_cached cache1 today2 days courses students = (Ok df, cache1).
Proof.
  unfold load_dummy_data_cached. intros Hfirst.
  destruct (cache !! (days, courses, students)) as [df0|] eqn:Hc.
  - inversion Hfirst; subst. by rewrite Hc.
  - destruct (load_dummy_data today1 days courses students); inversion Hfirst.
    subst. by rewrite lookup_insert_eq.
Qed.

(** C1, as amended: of two calls with the same [days], [courses],
    [students] (the seed is the constant 42), the second made in the cache
    the first left returns what the first returned, whatever the two days;
    two calls that both compute the table (neither cache holds the
    parameters) return the same rows in the same order in every column but
    [date], and the dates of the second are those of the first moved by the
    number of days between the calls, so that on the same day the two
    tables are identical. *)
Theorem C1_same_parameters_same_table {G : Type} `{Generator G}
    (cache cache1 cache2 : gmap (Z * Z * Z) DataFrame)
    (today1 today2 days courses students : Z) :
  (load_dummy_data_cached
     (load_dummy_data_cached cache today1 days courses students).2
     today2 days courses students).1 =
  (load_dummy_data_cached cache today1 days courses students).1 /\
  (cache1 !! (days, courses, students) = None ->
   cache2 !! (days, courses, students) = None ->
   (load_dummy_data_cached cache2 today2 days courses students).1 =
   result_map (shift_dates (today2 - today1))
     (load_dummy_data_cached cache1 today1 days courses students).1 /\
   (today1 = today2 ->
    (load_dummy_data_cached cache2 today2 days courses students).1 =
    (load_dummy_data_cached cache1 today1 days courses students).1)).
Proof.
  assert (load_dummy_data today2 days courses students =
          result_map (shift_dates (today2 - today1))
            (load_dummy_data today1 days courses students)) as Hshift.
  { replace today2 with (today1 + (today2 - today1)) at 1 by lia.
    apply load_dummy_data_shift. }
  split.
  - unfold load_dummy_data_cached.
    destruct (cache !! (days, courses, students)) as [df0|] eqn:Hc; simpl.
    + by rewrite Hc.
    + destruct (load_dummy_data today1 days courses students) as [df|e]
        eqn:Hrun; simpl.
      * by rewrite lookup_insert_eq.
      * rewrite Hc, Hshift. done.
  - intros Hc1 Hc2. unfold load_dummy_data_cached. rewrite Hc1, Hc2.
    assert (forall today,
      (match load_dummy_data today days courses students with
       | Ok df => (Ok df, <[(days, courses, students) := df]> cache2)
       | Raise e => (Raise e, cache2)
       end).1 = load_dummy_data today days courses students) as Hfst2
      by (intros today; by destruct (load_dummy_data today _ _ _)).
    assert (forall today,
      (match load_dummy_data today days courses students with
       | Ok df => (Ok df, <[(days, courses, students) := df]> cache1)
       | Raise e => (Raise e, cache1)
       end).1 = load_dummy_data today days courses students) as Hfst1
      by (intros today; by destruct (load_dummy_data today _ _ _)).
    rewrite Hfst2, Hfst1. split; [exact Hshift|]. by intros ->.
Qed.

Lemma C1_same_parameters_same_table_witness :
  (load_dummy_data_cached (G := Z)
     (load_dummy_data_cached (G := Z) ∅ 0 1 1 33).2 7 1 1 33).1 =
  (load_dummy_data_cached (G := Z) ∅ 0 1 1 33).1 /\
  (load_dummy_data_cached (G := Z) ∅ 7 1 1 33).1 =
  result_map (shift_dates (7 - 0))
    (load_dummy_data_cached (G := Z) ∅ 0 1 1 33).1.
Proof.
  destruct (C1_same_parameters_same_table (G := Z) ∅ ∅ ∅ 0 7 1 1 33)
    as [Hsame Hshift].
  split; [exact Hsame|].
  destruct (Hshift (lookup_empty _) (lookup_empty _)) as [Hmoved _].
  exact Hmoved.
Defined.

(** C1, as stated, fails: the same parameters and seed on two different days
    (day 0 and day 1), each call computing the table, give two tables that
    differ. *)
Lemma C1_other_day_other_table :
  exists df1 df2,
    (load_dummy_data_cached (G := Z) ∅ 0 1 1 33).1 = Ok df1 /\
    (load_dummy_data_cached (G := Z) ∅ 1 1 1 33).1 = Ok df2 /\
    df1 <> df2.
Proof.
  eexists _, _. split; [vm_compute; reflexivity|].
  split; [vm_compute; reflexivity|].
  intros Heq. apply (f_equal (fun df => head (map date (rows df)))) in Heq.
  vm_compute in Heq. discriminate.
Qed.

(** C3, as amended: with [days >= 1], [courses >= 1] and [students >= 33]
    the range [10, students // 3) of the active count is not empty and
    every draw succeeds: the generator returns a table. *)
Theorem C3_active_range_nonempty {G : Type} `{GeneratorLaws G}
    (today days courses students : Z) :
  1 <= days -> 1 <= courses -> 33 <= students ->
  10 < students / 3 /\
  exists df, load_dummy_data today days courses students = Ok df.
Proof.
  intros _ _ Hstudents.
  assert (11 <= students / 3) by (apply Z.div_le_lower_bound; lia).
  assert (10 < students / 3) as Hhigh by lia.
  split; [done|]. by apply load_dummy_data_ok.
Qed.

Lemma C3_active_range_nonempty_witness :
  10 < 33 / 3 /\ exists df, load_dummy_data (G := Z) 0 1 1 33 = Ok df.
Proof.
  apply (C3_active_range_nonempty (G := Z) 0 1 1 33); lia.
Defined.

(** C3, as stated, fails: three students meet the stated preconditions, yet
    the range [10, 1) is empty and the first draw raises. *)
Lemma C3_three_students_raise :
  1 <= 1 /\ 1 <= 1 /\ 3 <= 3 /\ 3 / 3 <= 10 /\
  load_dummy_data (G := Z) 0 1 1 3 = Raise (ValueError "low >= high").
Proof.
  do 3 (split; [lia|]).
  split; [compute; discriminate | vm_compute; reflexivity].
Qed.




Lemma pair_rows_NoDup (d : Z) (c : string) (rs : list Row) :
  NoDup (map key rs) -> NoDup (map student_id (pair_rows d c rs)).
Proof.
  induction rs as [|r rs IH]; simpl; [constructor|].
  intros [Hr Hrs]%NoDup_cons. case_bool_decide as Hdc; simpl; [|by apply IH].
  apply NoDup_cons. split; [|by apply IH].
  intros Hin. apply Hr.
  apply list_elem_of_fmap in Hin as (r' & Hs & Hr').
  apply list_elem_of_In, filter_In in Hr' as [Hr' Hdc'].
  apply bool_decide_eq_true in Hdc'.
  apply list_elem_of_fmap. exists r'. split; [|by apply list_elem_of_In].
  unfold key. destruct Hdc as [-> ->], Hdc' as [-> ->]. by rewrite Hs.
Qed.

(** C6: a generated table has no two rows with the same
    (date, course, student_id), and within each (date, course) pair the
    student ids are distinct. *)
Theorem C6_no_duplicate_triples {G : Type} `{GeneratorLaws G}
    (today days courses students : Z) (df : DataFrame) :
  load_dummy_data today days courses students = Ok df ->
  NoDup (map key (rows df)) /\
  forall d c, NoDup (map student_id (pair_rows d c (rows df))).
Proof.
  intros Hrun. apply load_dummy_data_spec in Hrun as [_ [_ Hnd]].
  assert (NoDup (map key (rows df))) as Hkeys
    by (apply Hnd; [apply date_range_NoDup|apply course_list_NoDup]).
  split; [done|]. intros d c. by apply pair_rows_NoDup.
Qed.

Lemma C6_no_duplicate_triples_witness :
  exists df,
    load_dummy_data (G := Z) 0 2 2 36 = Ok df /\
    NoDup (map key (rows df)) /\
    forall d c, NoDup (map student_id (pair_rows d c (rows df))).
Proof.
  eexists. split; [vm_compute; reflexivity|].
  apply (C6_no_duplicate_triples (G := Z) 0 2 2 36). vm_compute. reflexivity.
Defined.

(** ** Running the script *)

Lemma preserved_refl (s : Session) : preserved s s.
Proof. by intros l df. Qed.

Lemma preserved_trans (s1 s2 s3 : Session) :
  preserved s1 s2 -> preserved s2 s3 -> preserved s1 s3.
Proof. intros H12 H23 l df Hl. by apply H23, H12. Qed.

Lemma fresh_lookup (h : gmap positive DataFrame) : h !! fresh (dom h) = None.
Proof. apply not_elem_of_dom, is_fresh. Qed.

Lemma bind_ok {A B : Type} (m : Script A) (k : A -> Script B) (s s' : Session)
    (a : A) :
  m s = Ok (a, s') -> bind m k s = k a s'.
Proof. unfold bind. by intros ->. Qed.

Lemma emit_run (w : Widget) (s : Session) :
  emit w s = Ok (tt, {| heap := heap s; ui := ui s ++ [w] |}).
Proof. reflexivity. Qed.

Lemma frame_run (l : loc) (s : Session) (df : DataFrame) :
  heap s !! l = Some df -> frame l s = Ok (df, s).
Proof. unfold frame. by intros ->. Qed.

Lemma getitem_run (l : loc) (mask : Row -> bool) (s : Session)
    (df : DataFrame) :
  heap s !! l = Some df ->
  exists l' s',
    getitem l mask s = Ok (l', s') /\
    heap s !! l' = None /\
    heap s' = <[l' := getitem_mask mask df]> (heap s) /\
    ui s' = ui s.
Proof.
  intros Hl. unfold getitem. rewrite (bind_ok _ _ _ _ _ (frame_run _ _ _ Hl)).
  eexists _, _. split; [reflexivity|]. simpl.
  split; [apply fresh_lookup|done].
Qed.

Lemma insert_preserved (s s' : Session) (l : loc) (df : DataFrame) :
  heap s !! l = None -> heap s' = <[l := df]> (heap s) -> preserved s s'.
Proof.
  intros Hl Hs' l0 df0 Hl0. rewrite Hs'. rewrite lookup_insert_ne; [done|].
  congruence.
Qed.

Lemma apply_filters_run (from_date to_date : Z)
    (selected_courses : list string) (data : loc) (s : Session)
    (df : DataFrame) :
  heap s !! data = Some df ->
  exists filtered s',
    apply_filters from_date to_date selected_courses data s =
      Ok (filtered, s') /\
    heap s !! filtered = None /\
    heap s' !! filtered =
      Some (filter_frame from_date to_date selected_courses df) /\
    preserved s s' /\ ui s' = ui s.
Proof.
  intros Hdata. unfold apply_filters, filter_frame.
  destruct (getitem_run data (date_mask from_date to_date) s df Hdata)
    as (l1 & s1 & Hrun1 & Hfresh1 & Hheap1 & Hui1).
  rewrite (bind_ok _ _ _ _ _ Hrun1).
  assert (heap s1 !! l1 = Some (getitem_mask (date_mask from_date to_date) df))
    as Hl1 by (rewrite Hheap1; apply lookup_insert_eq).
  pose proof (insert_preserved s s1 l1 _ Hfresh1 Hheap1) as Hp1.
  destruct selected_courses as [|c cs].
  - exists l1, s1. by repeat split.
  - destruct (getitem_run l1 (isin (c :: cs)) s1 _ Hl1)
      as (l2 & s2 & Hrun2 & Hfresh2 & Hheap2 & Hui2).
    exists l2, s2. split; [done|].
    pose proof (insert_preserved s1 s2 l2 _ Hfresh2 Hheap2) as Hp2.
    split.
    { destruct (heap s !! l2) as [df2|] eqn:Hl2; [|done].
      apply Hp1 in Hl2. congruence. }
    split; [rewrite Hheap2; apply lookup_insert_eq|].
    split; [by eapply preserved_trans|congruence].
Qed.

Lemma kpis_run (filtered : loc) (s : Session) (f : DataFrame) :
  heap s !! filtered = Some f ->
  exists s',
    kpis filtered s =
      Ok ({| dau := nunique (map student_id (rows f));
             median_session := median (map session_minutes (rows f));
             completion_rate :=
               if negb (empty f)
               then fmul (mean (map (fun r => bool_to_float (completed r))
                                  (rows f))) 100
               else Finite 0;
             mean_quiz := mean (map quiz_score (rows f)) |}, s') /\
    heap s' = heap s /\ ui s `prefix_of` ui s'.
Proof.
  intros Hf. unfold kpis.
  repeat (rewrite (bind_ok _ _ _ _ _ (emit_run _ _))).
  erewrite bind_ok; [|by apply frame_run].
  repeat (rewrite (bind_ok _ _ _ _ _ (emit_run _ _))).
  eexists. split; [reflexivity|]. split; [reflexivity|].
  simpl. by repeat apply prefix_app_r.
Qed.

Lemma cut_length (xs : list float64) (bins : list Z) :
  length (codes (cut xs bins)) = length xs.
Proof. unfold cut. simpl. apply length_map. Qed.

Lemma zip_fst_snd {A B : Type} (l : list A) (k : list B) :
  length k = length l ->
  map fst (zip l k) = l /\ map snd (zip l k) = k.
Proof.
  revert k. induction l as [|a l IH]; intros [|b k] Hlen; simpl in *;
    try done.
  injection Hlen as Hlen. destruct (IH k Hlen) as [-> ->]. done.
Qed.

Lemma setitem_session_bucket_run (l : loc) (col : Categorical) (s : Session)
    (df : DataFrame) :
  heap s !! l = Some df ->
  length (codes col) = length (rows df) ->
  setitem_session_bucket l col s =
    Ok (tt, {| heap := <[l := BucketFrame (categories col)
                                (zip (rows df) (codes col))]> (heap s);
               ui := ui s |}).
Proof.
  intros Hl Hlen. unfold setitem_session_bucket, set_session_bucket.
  rewrite Hl, Hlen, Nat.eqb_refl. reflexivity.
Qed.

Lemma getitem_session_bucket_run (l : loc) (s : Session)
    (cats : list Interval) (rs : list (Row * option Interval)) :
  heap s !! l = Some (BucketFrame cats rs) ->
  getitem_session_bucket l s =
    Ok ({| categories := cats; codes := map snd rs |}, s).
Proof.
  intros Hl. unfold getitem_session_bucket.
  rewrite (bind_ok _ _ _ _ _ (frame_run _ _ _ Hl)). reflexivity.
Qed.

Lemma charts_run (observed : bool) (filtered : loc) (s : Session)
    (f : DataFrame) :
  heap s !! filtered = Some f ->
  exists s',
    charts observed filtered s =
      Ok ((sorted (fun x y => x.1 <=? y.1) (groupby_date_nunique (rows f)),
           map (fun bm => (interval_str bm.1, bm.2))
             (groupby_mean observed (cut (map session_minutes (rows f)) bins)
                (map quiz_score (rows f)))), s') /\
    heap s' =
      <[filtered := BucketFrame (intervals bins)
                      (zip (rows f)
                         (codes (cut (map session_minutes (rows f)) bins)))]>
        (heap s) /\
    ui s `prefix_of` ui s'.
Proof.
  intros Hf. unfold charts.
  erewrite bind_ok; [|by apply frame_run].
  repeat (rewrite (bind_ok _ _ _ _ _ (emit_run _ _))).
  fold bins.
  assert (length (codes (cut (map session_minutes (rows f)) bins)) =
          length (rows f)) as Hlen by (rewrite cut_length; apply length_map).
  erewrite bind_ok; [|by apply setitem_session_bucket_run].
  destruct (zip_fst_snd (rows f) _ Hlen) as [Hfst Hsnd].
  erewrite bind_ok;
    [|apply getitem_session_bucket_run; simpl; apply lookup_insert_eq].
  erewrite bind_ok; [|apply frame_run; simpl; apply lookup_insert_eq].
  repeat (rewrite (bind_ok _ _ _ _ _ (emit_run _ _))).
  unfold cut in Hfst, Hsnd. cbn [codes] in Hfst, Hsnd.
  cbn [rows]. rewrite Hfst, Hsnd.
  eexists. split; [reflexivity|]. split; [reflexivity|].
  simpl. by repeat apply prefix_app_r.
Qed.

Lemma check_dates_run (inp : Inputs) (s : Session) :
  exists s',
    (if from_date inp >? to_date inp
     then emit (SidebarError error_text) else ret tt) s = Ok (tt, s') /\
    heap s' = heap s /\
    (from_date inp > to_date inp -> SidebarError error_text ∈ ui s').
Proof.
  destruct (Z.gtb_spec (from_date inp) (to_date inp)) as [Hgt|Hle].
  - eexists. split; [reflexivity|]. split; [done|]. intros _. simpl.
    apply elem_of_app. right. by left.
  - exists s. split; [done|]. split; [done|]. lia.
Qed.

Lemma dashboard_run (observed : bool) (inp : Inputs) (data : loc)
    (s : Session) (df : DataFrame) :
  heap s !! data = Some df ->
  exists out s',
    dashboard observed inp data s = Ok (out, s') /\
    heap s !! filtered out = None /\
    heap s' !! data = Some df /\
    (let f := filter_frame (from_date inp) (to_date inp)
                (selected_courses inp) df in
     heap s' !! filtered out =
       Some (BucketFrame (intervals bins)
               (zip (rows f)
                  (codes (cut (map session_minutes (rows f)) bins))))) /\
    (from_date inp > to_date inp -> SidebarError error_text ∈ ui s').
Proof.
  intros Hdata. unfold dashboard.
  rewrite (bind_ok _ _ _ _ _ (emit_run _ _)).
  erewrite bind_ok; [|by apply frame_run].
  repeat (rewrite (bind_ok _ _ _ _ _ (emit_run _ _))).
  fold error_text.
  match goal with
  | |- context [bind (if _ then _ else _) _ ?st] =>
      destruct (check_dates_run inp st) as (s1 & Hrun1 & Hheap1 & Hui1)
  end.
  simpl in Hheap1.
  rewrite (bind_ok _ _ _ _ _ Hrun1).
  rewrite (bind_ok _ _ _ _ _ (emit_run _ _)).
  match goal with
  | |- context [bind (apply_filters _ _ _ _) _ ?st] => set (s2 := st)
  end.
  assert (heap s2 !! data = Some df) as Hdata2 by (simpl; congruence).
  destruct (apply_filters_run (from_date inp) (to_date inp)
              (selected_courses inp) data s2 df Hdata2)
    as (fl & s3 & Hrun3 & Hfresh3 & Hfl3 & Hp3 & Hui3).
  rewrite (bind_ok _ _ _ _ _ Hrun3).
  destruct (kpis_run fl s3 _ Hfl3) as (s4 & Hrun4 & Hheap4 & Hui4).
  rewrite (bind_ok _ _ _ _ _ Hrun4).
  assert (heap s4 !! fl = Some (filter_frame (from_date inp) (to_date inp)
                                  (selected_courses inp) df))
    as Hfl4 by congruence.
  destruct (charts_run observed fl s4 _ Hfl4) as (s5 & Hrun5 & Hheap5 & Hui5).
  rewrite (bind_ok _ _ _ _ _ Hrun5).
  rewrite (bind_ok _ _ _ _ _ (emit_run _ _)).
  eexists _, _. split; [reflexivity|]. simpl.
  assert (fl <> data) as Hne by (intros ->; simpl in *; congruence).
  split; [simpl in Hfresh3; congruence|].
  split.
  { rewrite Hheap5, lookup_insert_ne by done. rewrite Hheap4. by apply Hp3. }
  split; [rewrite Hheap5; apply lookup_insert_eq|].
  intros Hgt. apply elem_of_app. left.
  destruct Hui5 as [w5 ->]. apply elem_of_app. left.
  destruct Hui4 as [w4 ->]. apply elem_of_app. left.
  rewrite Hui3. simpl. apply elem_of_app. left. by apply Hui1.
Qed.

(** ** Claims about the filter *)

Lemma filter_fst_commute {A B : Type} (f : A -> bool) (l : list (A * B)) :
  map fst (List.filter (fun ab => f ab.1) l) = List.filter f (map fst l).
Proof.
  induction l as [|[a b] l IH]; simpl; [done|].
  destruct (f a); simpl; by rewrite IH.
Qed.

Lemma rows_getitem_mask (mask : Row -> bool) (df : DataFrame) :
  rows (getitem_mask mask df) = List.filter mask (rows df).
Proof. destruct df; simpl; [done|apply filter_fst_commute]. Qed.

Lemma filter_all {A : Type} (f : A -> bool) (l : list A) :
  (forall x, In x l -> f x = true) -> List.filter f l = l.
Proof.
  induction l as [|a l IH]; simpl; intros Hall; [done|].
  rewrite (Hall a) by auto. f_equal. apply IH. auto.
Qed.

Lemma getitem_mask_all (mask : Row -> bool) (df : DataFrame) :
  (forall r, In r (rows df) -> mask r = true) -> getitem_mask mask df = df.
Proof.
  destruct df as [rs|cats rs]; simpl; intros Hall; f_equal.
  - by apply filter_all.
  - apply filter_all. intros [r b] Hin. apply Hall.
    apply in_map_iff. by exists (r, b).
Qed.

Lemma filter_decide {A : Type} (P : A -> Prop) `{!forall x, Decision (P x)}
    (f : A -> bool) (l : list A) :
  (forall x, f x = true <-> P x) -> List.filter f l = filter P l.
Proof.
  intros Hf. induction l as [|a l IH]; simpl; [done|].
  rewrite filter_cons, IH. destruct (decide (P a)) as [Hp|Hp].
  - apply Hf in Hp. by rewrite Hp.
  - destruct (f a) eqn:Hfa; [|done]. by apply Hf in Hfa.
Qed.

Lemma keeps_kept (from_date to_date : Z) (selected_courses : list string)
    (r : Row) :
  keeps from_date to_date selected_courses r = true <->
  kept from_date to_date selected_courses r.
Proof.
  unfold keeps, kept, date_mask, isin.
  rewrite !andb_true_iff, !Z.leb_le.
  destruct selected_courses as [|c cs].
  - intuition.
  - rewrite bool_decide_eq_true. intuition congruence.
Qed.

Lemma filter_filter_andb {A : Type} (f g : A -> bool) (l : list A) :
  List.filter g (List.filter f l) = List.filter (fun x => f x && g x) l.
Proof.
  induction l as [|a l IH]; simpl; [done|].
  destruct (f a); simpl; [|done]. destruct (g a); by rewrite IH.
Qed.

Lemma rows_filter_frame (from_date to_date : Z)
    (selected_courses : list string) (df : DataFrame) :
  rows (filter_frame from_date to_date selected_courses df) =
  List.filter (keeps from_date to_date selected_courses) (rows df).
Proof.
  unfold filter_frame, keeps. destruct selected_courses as [|c cs].
  - rewrite rows_getitem_mask. apply filter_ext. intros r.
    by rewrite andb_true_r.
  - rewrite !rows_getitem_mask. apply filter_filter_andb.
Qed.

Lemma filter_frame_idem (from_date to_date : Z)
    (selected_courses : list string) (df : DataFrame) :
  filter_frame from_date to_date selected_courses
    (filter_frame from_date to_date selected_courses df) =
  filter_frame from_date to_date selected_courses df.
Proof.
  assert (forall r,
            In r (rows (filter_frame from_date to_date selected_courses df)) ->
            keeps from_date to_date selected_courses r = true) as Hall.
  { intros r. rewrite rows_filter_frame. by intros [_ ?]%filter_In. }
  set (f := filter_frame from_date to_date selected_courses df) in *.
  unfold keeps in Hall. unfold filter_frame at 1.
  destruct selected_courses as [|c cs].
  - apply getitem_mask_all. intros r Hr%Hall.
    by apply andb_true_iff in Hr as [? _].
  - rewrite (getitem_mask_all (date_mask from_date to_date) f).
    + apply getitem_mask_all. intros r Hr%Hall.
      by apply andb_true_iff in Hr as [_ ?].
    + intros r Hr%Hall. by apply andb_true_iff in Hr as [? _].
Qed.

Lemma session0_data : heap session0 !! 1%positive = Some (Frame [r1; r2; r3]).
Proof. apply lookup_singleton_eq. Qed.

(** C4: the filter block leaves in [filtered] exactly the rows of [data]
    with [from_date <= date <= to_date] and, unless [selected_courses] is
    empty, a course among [selected_courses]; in their order. *)
Theorem C4_filter_keeps_exactly (from_date to_date : Z)
    (selected_courses : list string) (data : loc) (s : Session)
    (df : DataFrame) :
  heap s !! data = Some df ->
  exists filtered s' fdf,
    apply_filters from_date to_date selected_courses data s =
      Ok (filtered, s') /\
    heap s' !! filtered = Some fdf /\
    rows fdf = filter (kept from_date to_date selected_courses) (rows df).
Proof.
  intros Hdata.
  destruct (apply_filters_run from_date to_date selected_courses data s df
              Hdata) as (fl & s' & Hrun & _ & Hfl & _).
  exists fl, s', (filter_frame from_date to_date selected_courses df).
  split; [done|]. split; [done|].
  rewrite rows_filter_frame. apply filter_decide. intros r. apply keeps_kept.
Qed.

Lemma C4_filter_keeps_exactly_witness :
  exists filtered s' fdf,
    apply_filters 6 6 ["Course‑1"] 1%positive session0 = Ok (filtered, s') /\
    heap s' !! filtered = Some fdf /\
    rows fdf = filter (kept 6 6 ["Course‑1"]) [r1; r2; r3].
Proof.
  apply (C4_filter_keeps_exactly 6 6 ["Course‑1"] 1%positive session0
           (Frame [r1; r2; r3])).
  apply session0_data.
Defined.

(** C9: filtering the filtered frame again with the same criteria gives a
    frame with the same contents. *)
Theorem C9_filter_idempotent (from_date to_date : Z)
    (selected_courses : list string) (data : loc) (s : Session)
    (df : DataFrame) :
  heap s !! data = Some df ->
  exists filtered1 s1 filtered2 s2 fdf,
    apply_filters from_date to_date selected_courses data s =
      Ok (filtered1, s1) /\
    apply_filters from_date to_date selected_courses filtered1 s1 =
      Ok (filtered2, s2) /\
    heap s1 !! filtered1 = Some fdf /\
    heap s2 !! filtered2 = Some fdf.
Proof.
  intros Hdata.
  destruct (apply_filters_run from_date to_date selected_courses data s df
              Hdata) as (fl1 & s1 & Hrun1 & _ & Hfl1 & _).
  destruct (apply_filters_run from_date to_date selected_courses fl1 s1 _
              Hfl1) as (fl2 & s2 & Hrun2 & _ & Hfl2 & _).
  rewrite filter_frame_idem in Hfl2.
  by exists fl1, s1, fl2, s2, (filter_frame from_date to_date selected_courses df).
Qed.

Lemma C9_filter_idempotent_witness :
  exists filtered1 s1 filtered2 s2 fdf,
    apply_filters 6 6 ["Course‑1"] 1%positive session0 = Ok (filtered1, s1) /\
    apply_filters 6 6 ["Course‑1"] filtered1 s1 = Ok (filtered2, s2) /\
    heap s1 !! filtered1 = Some fdf /\
    heap s2 !! filtered2 = Some fdf.
Proof.
  apply (C9_filter_idempotent 6 6 ["Course‑1"] 1%positive session0
           (Frame [r1; r2; r3])).
  apply session0_data.
Defined.

(** ** Claims about the page *)

Lemma inverted_range_rows (from_date to_date : Z)
    (selected_courses : list string) (df : DataFrame) :
  from_date > to_date ->
  rows (filter_frame from_date to_date selected_courses df) = [].
Proof.
  intros Hgt. rewrite rows_filter_frame.
  induction (rows df) as [|r rs IH]; simpl; [done|].
  unfold keeps at 1, date_mask.
  destruct (Z.leb_spec from_date (date r)), (Z.leb_spec (date r) to_date);
    simpl; try done; lia.
Qed.

(** C2, the code on the empty filtered table: no active user and a
    completion rate of 0, but the median session length and the mean quiz
    score are NaN. *)
Lemma C2_empty_table_kpis :
  result_map fst
    (kpis 1%positive {| heap := {[1%positive := Frame []]}; ui := [] |}) =
  Ok {| dau := 0; median_session := NaN;
        completion_rate := Finite 0; mean_quiz := NaN |}.
Proof. vm_compute. reflexivity. Qed.

(** C7: with [from_date > to_date] the page runs to its end without an
    exception, the sidebar shows the message about the dates, the filter
    still runs, and the filtered frame has no rows. *)
Theorem C7_inverted_range (observed : bool) (inp : Inputs) (data : loc)
    (s : Session) (df : DataFrame) :
  from_date inp > to_date inp ->
  heap s !! data = Some df ->
  exists out s' fdf,
    dashboard observed inp data s = Ok (out, s') /\
    SidebarError error_text ∈ ui s' /\
    heap s' !! filtered out = Some fdf /\
    rows fdf = [].
Proof.
  intros Hgt Hdata.
  destruct (dashboard_run observed inp data s df Hdata)
    as (out & s' & Hrun & _ & _ & Hfl & Hui).
  simpl in Hfl. eexists out, s', _.
  split; [done|]. split; [by apply Hui|]. split; [exact Hfl|].
  simpl. rewrite inverted_range_rows by done. reflexivity.
Qed.

Lemma C7_inverted_range_witness :
  exists out s' fdf,
    dashboard false (mkInputs 6 5 ["Course‑1"]) 1%positive session0 =
      Ok (out, s') /\
    SidebarError error_text ∈ ui s' /\
    heap s' !! filtered out = Some fdf /\
    rows fdf = [].
Proof.
  apply (C7_inverted_range false (mkInputs 6 5 ["Course‑1"]) 1%positive
           session0 (Frame [r1; r2; r3])).
  - reflexivity.
  - apply session0_data.
Defined.

(** C10: a pass of the page over [data], filter, KPIs and charts, the
    [session_bucket] assignment included, leaves the object [data] as it
    was: the column is attached to another object, [filtered]. *)
Theorem C10_base_dataset_unchanged (observed : bool) (inp : Inputs)
    (data : loc) (s : Session) (df : DataFrame) :
  heap s !! data = Some df ->
  exists out s',
    dashboard observed inp data s = Ok (out, s') /\
    heap s' !! data = Some df /\
    heap s !! filtered out = None /\
    exists cats rs, heap s' !! filtered out = Some (BucketFrame cats rs).
Proof.
  intros Hdata.
  destruct (dashboard_run observed inp data s df Hdata)
    as (out & s' & Hrun & Hfresh & Hsame & Hfl & _).
  exists out, s'. split; [done|]. split; [done|]. split; [done|].
  by eexists _, _.
Qed.

Lemma C10_base_dataset_unchanged_witness :
  exists out s',
    dashboard false (mkInputs 5 6 []) 1%positive session0 = Ok (out, s') /\
    heap s' !! 1%positive = Some (Frame [r1; r2; r3]) /\
    heap session0 !! filtered out = None /\
    exists cats rs, heap s' !! filtered out = Some (BucketFrame cats rs).
Proof.
  apply (C10_base_dataset_unchanged false (mkInputs 5 6 []) 1%positive
           session0 (Frame [r1; r2; r3])).
  apply session0_data.
Defined.

(** X15: The whole script, from [data = load_dummy_data()] on: the defaults
    (90, 5, 400) are above the threshold of 33 students, the page runs to
    its end, and the generated table is still what [data] holds. *)
Lemma app_run {G : Type} `{GeneratorLaws G} (observed : bool) (today : Z)
    (inp : Inputs) :
  exists df out s' data,
    load_dummy_data today 90 5 400 = Ok df /\
    app observed today inp = Ok (out, s') /\
    heap s' !! data = Some df /\ data <> filtered out.
Proof.
  destruct (load_dummy_data_ok today 90 5 400 ltac:(done)) as (df & Hload).
  unfold app. rewrite Hload.
  set (s0 := {| heap := ∅; ui := [] |}).
  set (data := fresh (dom (heap s0))).
  set (s1 := {| heap := <[data := df]> (heap s0); ui := ui s0 |}).
  assert (new_frame df s0 = Ok (data, s1)) as Hnew by reflexivity.
  rewrite (bind_ok _ _ _ _ _ Hnew).
  assert (heap s1 !! data = Some df) as Hdata by apply lookup_insert_eq.
  destruct (dashboard_run observed inp data s1 df Hdata)
    as (out & s' & Hrun & Hfresh & Hsame & _).
  exists df, out, s', data.
  repeat split; [exact Hrun|exact Hsame|].
  intros Heq. rewrite <- Heq in Hfresh. congruence.
Qed.

(** ** Claims about the session buckets *)

Ltac q_props :=
  repeat match goal with
    | H : Qle_bool _ _ = true |- _ => apply Qle_bool_iff in H
    | H : Qle_bool _ _ = false |- _ =>
        apply not_true_iff_false in H; rewrite Qle_bool_iff in H
    end.

Lemma cut_value_bucket (x : float64) (c : Interval) :
  In c buckets ->
  bool_decide (cut_value bins x = Some c) = in_interval_oc c x.
Proof.
  intros Hc. simpl in Hc.
  destruct x as [q|]; [|by destruct Hc as [<-|[<-|[<-|[<-|[<-|[]]]]]]].
  destruct Hc as [<-|[<-|[<-|[<-|[<-|[]]]]]];
    unfold cut_value, in_interval_oc, searchsorted_left, bins, Qltb;
    cbn [List.filter left right];
    repeat match goal with
      | |- context [Qle_bool ?a ?b] => destruct (Qle_bool a b) eqn:?
      end;
    try (vm_compute; reflexivity);
    exfalso; q_props; unfold inject_Z in *; lra.
Qed.

Lemma group_values_bucket (rs : list Row) (c : Interval) :
  In c buckets ->
  group_values (map (cut_value bins) (map session_minutes rs))
    (map quiz_score rs) c =
  map quiz_score (List.filter (in_bucket c) rs).
Proof.
  intros Hc. unfold group_values.
  induction rs as [|r rs IH]; simpl; [done|].
  rewrite (cut_value_bucket _ c Hc). fold (in_bucket c r).
  destruct (in_bucket c r); simpl; by rewrite IH.
Qed.

Lemma observed_group_bucket (rs : list Row) (c : Interval) :
  In c buckets ->
  observed_group (map (cut_value bins) (map session_minutes rs)) c =
  existsb (in_bucket c) rs.
Proof.
  intros Hc. unfold observed_group.
  induction rs as [|r rs IH]; simpl; [done|].
  rewrite <- IH. unfold in_bucket. rewrite <- (cut_value_bucket _ c Hc).
  rewrite <- bool_decide_or. apply bool_decide_ext.
  rewrite elem_of_cons. split; (intros [Heq|Hin]; [by left|by right]).
Qed.

Lemma groupby_mean_buckets (observed : bool) (rs : list Row) :
  map (fun bm : Interval * float64 => (interval_str bm.1, bm.2))
    (groupby_mean observed (cut (map session_minutes rs) bins)
       (map quiz_score rs)) =
  quiz_by_session_bucket observed rs.
Proof.
  unfold groupby_mean, quiz_by_session_bucket, cut. cbn [categories codes].
  change (intervals bins) with buckets. rewrite map_map. cbn [fst snd].
  assert (List.filter
            (observed_group (map (cut_value bins) (map session_minutes rs)))
            buckets =
          List.filter (fun c => existsb (in_bucket c) rs) buckets) as Hobs
    by (apply filter_ext_in; intros c Hc; by apply observed_group_bucket).
  rewrite Hobs. apply map_ext_in. intros c Hc.
  rewrite group_values_bucket; [done|].
  destruct observed; [by apply filter_In in Hc as [? _]|done].
Qed.

Lemma interval_str_inj (c c' : Interval) :
  In c buckets -> In c' buckets -> interval_str c = interval_str c' -> c = c'.
Proof.
  simpl. intros Hc Hc'.
  destruct Hc as [<-|[<-|[<-|[<-|[<-|[]]]]]];
    destruct Hc' as [<-|[<-|[<-|[<-|[<-|[]]]]]];
    intros Hstr; try reflexivity; vm_compute in Hstr; discriminate.
Qed.

Lemma existsb_false_filter {A : Type} (f : A -> bool) (l : list A) :
  existsb f l = false -> List.filter f l = [].
Proof.
  induction l as [|a l IH]; simpl; [done|].
  destruct (f a); simpl; [done|]. exact IH.
Qed.

(** C8, as amended: the aggregate splits [session_minutes] into the buckets
    (0,5], (5,10], (10,20], (20,30], (30,60] and reports for every bucket
    with a row the mean [quiz_score] of the rows in it; a bucket without
    rows is never zero-filled: it is left out when the grouping lists
    observed categories only, and listed with a NaN mean when it lists
    all categories. *)
Theorem C8_quiz_by_session_bucket (observed : bool) (filtered : loc)
    (s : Session) (f : DataFrame) :
  heap s !! filtered = Some f ->
  exists out s',
    charts observed filtered s = Ok (out, s') /\
    out.2 = quiz_by_session_bucket observed (rows f) /\
    forall c, In c buckets ->
      (existsb (in_bucket c) (rows f) = true ->
       In (interval_str c,
           mean (map quiz_score (List.filter (in_bucket c) (rows f)))) out.2) /\
      (existsb (in_bucket c) (rows f) = false ->
       if observed then forall m, ~ In (interval_str c, m) out.2
       else In (interval_str c, NaN) out.2).
Proof.
  intros Hf. destruct (charts_run observed filtered s f Hf) as (s' & Hrun & _).
  eexists _, s'. split; [exact Hrun|]. cbn [snd].
  rewrite groupby_mean_buckets. split; [done|].
  intros c Hc. unfold quiz_by_session_bucket. split.
  - intros Hsome. apply in_map_iff. exists c. split; [done|].
    destruct observed; [|done]. apply filter_In. by split.
  - intros Hnone. destruct observed.
    + intros m Hin. apply in_map_iff in Hin as (c' & Heq & Hc').
      apply filter_In in Hc' as [Hc' Hsome].
      assert (c' = c) as -> by (apply interval_str_inj; congruence).
      congruence.
    + apply in_map_iff. exists c. split; [|done].
      by rewrite (existsb_false_filter _ _ Hnone).
Qed.

Lemma C8_quiz_by_session_bucket_witness :
  exists out s',
    charts true 1%positive session0 = Ok (out, s') /\
    out.2 = quiz_by_session_bucket true [r1; r2; r3] /\
    forall c, In c buckets ->
      (existsb (in_bucket c) [r1; r2; r3] = true ->
       In (interval_str c,
           mean (map quiz_score (List.filter (in_bucket c) [r1; r2; r3])))
         out.2) /\
      (existsb (in_bucket c) [r1; r2; r3] = false ->
       forall m, ~ In (interval_str c, m) out.2).
Proof.
  apply (C8_quiz_by_session_bucket true 1%positive session0
           (Frame [r1; r2; r3])).
  apply session0_data.
Defined.

(** C8, as stated, fails where the grouping lists all categories (the
    pandas default before 3.0): of the rows [r1], [r2], [r3] none has a
    session in (5,10], (20,30] or (30,60], and each of these buckets is in
    the output, with NaN. *)
Lemma C8_empty_bucket_listed :
  result_map (fun r => r.1.2) (charts false 1%positive session0) =
  Ok [("(0, 5]", Finite (150 # 2)); ("(5, 10]", NaN);
      ("(10, 20]", Finite 60); ("(20, 30]", NaN); ("(30, 60]", NaN)].
Proof. vm_compute. reflexivity. Qed.

(** * Further properties *)

(** ** The generated table, block by block *)

Lemma pair_blocks_app (students : Z) (p1 p2 : list (Z * string))
    (n1 n2 : list Row) :
  pair_blocks students p1 n1 -> pair_blocks students p2 n2 ->
  pair_blocks students (p1 ++ p2) (n1 ++ n2).
Proof.
  induction 1 as [|d c pairs blk new Hblk Hrest IH]; intros H2; simpl; [done|].
  rewrite <- app_assoc. constructor; [done|]. by apply IH.
Qed.

Section Blocks.
Context {G : Type} `{GeneratorLaws G}.

Lemma draw_block_size (students : Z) (g : G) :
  10 < students / 3 ->
  exists active g1 ids g2,
    integers 10 (students / 3) g = Ok (active, g1) /\
    choice students active g1 = Ok (ids, g2) /\
    10 <= Z.of_nat (length ids) < students / 3.
Proof.
  intros Hhigh.
  destruct (integers_range 10 (students / 3) g Hhigh)
    as (active & g1 & Hint & Hlo & Hhi).
  assert (students / 3 <= students) as Hle.
  { assert (0 <= students).
    { destruct (Z.neg_nonneg_cases students) as [Hneg|Hpos]; [|done].
      apply (Z.div_lt_upper_bound students 3 0) in Hneg; lia. }
    apply Z.div_le_upper_bound; lia. }
  destruct (choice_distinct students active g1 ltac:(lia))
    as (ids & g2 & Hch & Hlen & _).
  exists active, g1, ids, g2. split; [done|]. split; [done|]. lia.
Qed.

Lemma for_courses_blocks (students d : Z) (cs : list string) (g g' : G)
    (recs recs' : list Row) :
  for_courses students d cs g recs = Ok (g', recs') ->
  exists new,
    recs' = recs ++ new /\ pair_blocks students (map (pair d) cs) new.
Proof.
  revert g recs. induction cs as [|c cs IH]; intros g recs Hrun; simpl in Hrun.
  - exists []. split; [|constructor]. rewrite app_nil_r. congruence.
  - destruct (Z.lt_ge_cases 10 (students / 3)) as [Hhigh|Hhigh].
    + destruct (draw_block_size students g Hhigh)
        as (active & g1 & ids & g2 & Hint & Hch & Hsize).
      rewrite Hint, Hch in Hrun.
      destruct (for_ids_spec d c ids g2 recs) as (blk & Hblk & Hids & Hdrawn).
      destruct (for_ids d c ids g2 recs) as [g3 recs3]. simpl in Hblk.
      subst recs3.
      destruct (IH _ _ Hrun) as (new & -> & Hnew).
      exists (blk ++ new). split; [by rewrite app_assoc|].
      simpl. constructor; [|done]. split; [done|].
      rewrite <- Hids, length_map in Hsize. exact Hsize.
    + rewrite (integers_empty 10 (students / 3) g) in Hrun by lia. discriminate.
Qed.

Lemma for_dates_blocks (students : Z) (cs : list string) (ds : list Z)
    (g g' : G) (recs recs' : list Row) :
  for_dates students cs ds g recs = Ok (g', recs') ->
  exists new, recs' = recs ++ new /\ pair_blocks students (list_prod ds cs) new.
Proof.
  revert g recs. induction ds as [|d ds IH]; intros g recs Hrun; simpl in Hrun.
  - exists []. split; [|constructor]. rewrite app_nil_r. congruence.
  - destruct (for_courses students d cs g recs) as [[g1 recs1]|e] eqn:Hc;
      [|discriminate].
    apply for_courses_blocks in Hc as (blk & -> & Hblk).
    destruct (IH _ _ Hrun) as (new & -> & Hnew).
    exists (blk ++ new). split; [by rewrite app_assoc|].
    simpl. by apply pair_blocks_app.
Qed.

Lemma load_dummy_data_blocks (today days courses students : Z)
    (df : DataFrame) :
  load_dummy_data today days courses students = Ok df ->
  pair_blocks students
    (list_prod (date_range (today - (days - 1)) days)
       (map course_name (range courses)))
    (rows df).
Proof.
  unfold load_dummy_data. intros Hrun.
  destruct (for_dates _ _ _ _ _) as [[g recs]|e] eqn:Hd; [|discriminate].
  apply for_dates_blocks in Hd as (new & -> & Hnew).
  inversion Hrun; subst df. exact Hnew.
Qed.
End Blocks.

Lemma pair_blocks_length (students : Z) (pairs : list (Z * string))
    (new : list Row) :
  pair_blocks students pairs new ->
  10 * Z.of_nat (length pairs) <= Z.of_nat (length new) /\
  Z.of_nat (length new) <= (students / 3 - 1) * Z.of_nat (length pairs).
Proof.
  induction 1 as [|d c pairs blk new [_ Hsize] Hrest IH]; simpl; [lia|].
  rewrite length_app. nia.
Qed.

Lemma date_range_length (start periods : Z) :
  0 <= periods -> Z.of_nat (length (date_range start periods)) = periods.
Proof.
  intros Hp. unfold date_range. rewrite length_map, length_seq. lia.
Qed.

Lemma date_range_elem (start periods d : Z) :
  start <= d < start + periods -> In d (date_range start periods).
Proof.
  intros Hd. unfold date_range. apply in_map_iff.
  exists (Z.to_nat (d - start)). split; [lia|]. apply in_seq. lia.
Qed.

Lemma course_list_elem (courses i : Z) :
  0 <= i < courses -> In (course_name i) (map course_name (range courses)).
Proof.
  intros Hi. apply in_map. unfold range. apply in_map_iff.
  exists (Z.to_nat i). split; [lia|]. apply in_seq. lia.
Qed.

Lemma pair_rows_app (d : Z) (c : string) (l1 l2 : list Row) :
  pair_rows d c (l1 ++ l2) = pair_rows d c l1 ++ pair_rows d c l2.
Proof. apply List.filter_app. Qed.

Lemma pair_rows_block (students d : Z) (c : string) (blk : list Row) :
  block students d c blk -> pair_rows d c blk = blk.
Proof.
  intros [Hdrawn _]. apply filter_all. intros r Hr%list_elem_of_In.
  rewrite Forall_forall in Hdrawn. destruct (Hdrawn r Hr) as (Hd & Hc & _).
  by apply bool_decide_eq_true.
Qed.

Lemma pair_rows_other_block (students d d0 : Z) (c c0 : string)
    (blk : list Row) :
  block students d0 c0 blk -> (d0, c0) <> (d, c) -> pair_rows d c blk = [].
Proof.
  intros [Hdrawn _] Hne. apply existsb_false_filter.
  induction Hdrawn as [|r blk (Hd & Hc & _) _ IH]; simpl; [done|].
  rewrite IH, orb_false_r. apply bool_decide_eq_false. intros [? ?].
  apply Hne. congruence.
Qed.

Lemma pair_rows_absent (students d : Z) (c : string)
    (pairs : list (Z * string)) (new : list Row) :
  pair_blocks students pairs new -> ~ In (d, c) pairs -> pair_rows d c new = [].
Proof.
  induction 1 as [|d0 c0 pairs blk new Hblk Hrest IH]; intros Hnot; [done|].
  rewrite pair_rows_app, IH by (intros Hin; apply Hnot; by right).
  rewrite (pair_rows_other_block students d d0 c c0 blk Hblk); [done|].
  intros Heq. apply Hnot. by left.
Qed.

Lemma pair_blocks_count (students d : Z) (c : string)
    (pairs : list (Z * string)) (new : list Row) :
  pair_blocks students pairs new -> NoDup pairs -> In (d, c) pairs ->
  10 <= Z.of_nat (length (pair_rows d c new)) < students / 3.
Proof.
  induction 1 as [|d0 c0 pairs blk new Hblk Hrest IH]; intros Hnd Hin;
    [done|].
  apply NoDup_cons in Hnd as [Hfresh Hnd]. rewrite pair_rows_app.
  destruct (decide ((d0, c0) = (d, c))) as [Heq|Hne].
  - injection Heq as -> ->.
    rewrite (pair_rows_block students d c blk Hblk).
    rewrite (pair_rows_absent students d c pairs new Hrest)
      by (by rewrite <- list_elem_of_In).
    rewrite app_nil_r. by destruct Hblk.
  - rewrite (pair_rows_other_block students d d0 c c0 blk Hblk Hne). simpl.
    apply IH; [done|]. by destruct Hin as [Heq|Hin].
Qed.

Lemma list_prod_NoDup {A B : Type} (l : list A) (k : list B) :
  NoDup l -> NoDup k -> NoDup (list_prod l k).
Proof.
  intros Hl Hk. induction Hl as [|a l Ha Hl IH]; simpl; [constructor|].
  apply NoDup_app. split; [|split; [|done]].
  - assert (Inj (=) (=) (@pair A B a)) by (by intros x y [= ->]).
    by apply (NoDup_fmap_2 (pair a)).
  - intros [a' b] Hin1%list_elem_of_In Hin2%list_elem_of_In.
    apply in_map_iff in Hin1 as (b' & [= <- <-] & _).
    apply in_prod_iff in Hin2 as [Hin2 _]. by apply Ha, list_elem_of_In.
Qed.

(** X1: The number of rows: between 10 and [students // 3 - 1] for each of the
    [days * courses] pairs. *)
Theorem row_count_bounds {G : Type} `{GeneratorLaws G}
    (today days courses students : Z) (df : DataFrame) :
  0 <= days -> 0 <= courses ->
  load_dummy_data today days courses students = Ok df ->
  10 * (days * courses) <= Z.of_nat (length (rows df)) /\
  Z.of_nat (length (rows df)) <= (students / 3 - 1) * (days * courses).
Proof.
  intros Hdays Hcourses Hrun.
  apply load_dummy_data_blocks, pair_blocks_length in Hrun.
  rewrite length_prod, Nat2Z.inj_mul, date_range_length in Hrun by done.
  rewrite length_map in Hrun. unfold range in Hrun.
  rewrite length_map, length_seq, Z2Nat.id in Hrun by done. exact Hrun.
Qed.

Lemma row_count_bounds_witness :
  exists df,
    load_dummy_data (G := Z) 0 2 2 36 = Ok df /\
    10 * (2 * 2) <= Z.of_nat (length (rows df)) /\
    Z.of_nat (length (rows df)) <= (36 / 3 - 1) * (2 * 2).
Proof.
  eexists. split; [vm_compute; reflexivity|].
  apply (row_count_bounds (G := Z) 0 2 2 36); [lia|lia|].
  vm_compute. reflexivity.
Defined.

(** X2: Every date of the range and every course of the list has its records:
    at least 10 and fewer than [students // 3]. *)
Theorem pair_record_count {G : Type} `{GeneratorLaws G}
    (today days courses students : Z) (df : DataFrame) (d i : Z) :
  load_dummy_data today days courses students = Ok df ->
  today - (days - 1) <= d <= today -> 0 <= i < courses ->
  10 <= Z.of_nat (length (pair_rows d (course_name i) (rows df))) <
    students / 3.
Proof.
  intros Hrun Hd Hi.
  apply (pair_blocks_count students d (course_name i)
           (list_prod (date_range (today - (days - 1)) days)
              (map course_name (range courses)))).
  - by apply load_dummy_data_blocks.
  - apply list_prod_NoDup; [apply date_range_NoDup|apply course_list_NoDup].
  - apply in_prod_iff. split; [apply date_range_elem; lia|].
    by apply course_list_elem.
Qed.

Lemma pair_record_count_witness :
  exists df,
    load_dummy_data (G := Z) 0 2 2 36 = Ok df /\
    10 <= Z.of_nat (length (pair_rows (-1) (course_name 1) (rows df))) <
      36 / 3.
Proof.
  eexists. split; [vm_compute; reflexivity|].
  apply (pair_record_count (G := Z) 0 2 2 36); [|lia|lia].
  vm_compute. reflexivity.
Defined.

Lemma constant_sorted (d : Z) (l : list Z) :
  Forall (fun x => x = d) l -> StronglySorted Z.le l.
Proof.
  induction 1 as [|x l -> Hl IH]; constructor; [done|].
  eapply Forall_impl; [exact Hl|]. simpl. lia.
Qed.

Lemma date_range_sorted (start periods : Z) :
  StronglySorted Z.le (date_range start periods).
Proof.
  unfold date_range. generalize 0%nat as a.
  induction (Z.to_nat periods) as [|n IH]; intros a; simpl; constructor.
  - apply IH.
  - apply Forall_forall. intros x Hx%list_elem_of_In.
    apply in_map_iff in Hx as (i & <- & Hi). apply in_seq in Hi. lia.
Qed.

Lemma list_prod_fst_sorted {B : Type} (ds : list Z) (cs : list B) :
  StronglySorted Z.le ds -> StronglySorted Z.le (map fst (list_prod ds cs)).
Proof.
  induction 1 as [|d ds Hds IH Hle]; simpl; [constructor|].
  rewrite map_app. apply StronglySorted_app_2.
  - intros x1 x2 Hx1%list_elem_of_In Hx2%list_elem_of_In.
    rewrite map_map in Hx1. apply in_map_iff in Hx1 as (b & <- & _).
    apply in_map_iff in Hx2 as ([d' b'] & <- & Hin).
    apply in_prod_iff in Hin as [Hin _]. simpl.
    rewrite Forall_forall in Hle. by apply Hle, list_elem_of_In.
  - rewrite map_map. apply (constant_sorted d), Forall_forall.
    intros x Hx%list_elem_of_In. by apply in_map_iff in Hx as (b & <- & _).
  - exact IH.
Qed.

Lemma pair_blocks_dates (students : Z) (pairs : list (Z * string))
    (new : list Row) :
  pair_blocks students pairs new ->
  Forall (fun r => In (date r) (map fst pairs)) new.
Proof.
  induction 1 as [|d c pairs blk new [Hdrawn _] Hrest IH]; [constructor|].
  apply Forall_app. split.
  - eapply Forall_impl; [exact Hdrawn|]. simpl. intros r (Hd & _). by left.
  - eapply Forall_impl; [exact IH|]. simpl. intros r Hr. by right.
Qed.

Lemma pair_blocks_sorted (students : Z) (pairs : list (Z * string))
    (new : list Row) :
  pair_blocks students pairs new ->
  StronglySorted Z.le (map fst pairs) ->
  StronglySorted Z.le (map date new).
Proof.
  induction 1 as [|d c pairs blk new [Hdrawn _] Hrest IH]; intros Hsorted;
    [constructor|].
  simpl in Hsorted. apply StronglySorted_cons in Hsorted as [Hle Hsorted].
  rewrite map_app. apply StronglySorted_app_2.
  - intros x1 x2 Hx1%list_elem_of_In Hx2%list_elem_of_In.
    apply in_map_iff in Hx1 as (r1 & <- & Hr1).
    apply in_map_iff in Hx2 as (r2 & <- & Hr2).
    rewrite Forall_forall in Hdrawn.
    destruct (Hdrawn r1) as (-> & _); [by apply list_elem_of_In|].
    pose proof (pair_blocks_dates _ _ _ Hrest) as Hdates.
    rewrite Forall_forall in Hdates. rewrite Forall_forall in Hle.
    by apply Hle, list_elem_of_In, Hdates, list_elem_of_In.
  - apply (constant_sorted d), Forall_forall.
    intros x Hx%list_elem_of_In. apply in_map_iff in Hx as (r & <- & Hr).
    rewrite Forall_forall in Hdrawn.
    by destruct (Hdrawn r) as (-> & _); [apply list_elem_of_In|].
  - by apply IH.
Qed.

(** X3: The rows come in the order of the dates: the date column never
    decreases down the table. *)
Theorem dates_ascending {G : Type} `{GeneratorLaws G}
    (today days courses students : Z) (df : DataFrame) :
  load_dummy_data today days courses students = Ok df ->
  StronglySorted Z.le (map date (rows df)).
Proof.
  intros Hrun. apply load_dummy_data_blocks in Hrun.
  eapply pair_blocks_sorted; [exact Hrun|].
  apply list_prod_fst_sorted, date_range_sorted.
Qed.

Lemma dates_ascending_witness :
  exists df,
    load_dummy_data (G := Z) 0 2 2 36 = Ok df /\
    StronglySorted Z.le (map date (rows df)).
Proof.
  eexists. split; [vm_compute; reflexivity|].
  apply (dates_ascending (G := Z) 0 2 2 36). vm_compute. reflexivity.
Defined.





Lemma load_dummy_data_cached_again_witness :
  exists df cache1,
    load_dummy_data_cached (G := Z) ∅ 0 1 1 33 = (Ok df, cache1) /\
    load_dummy_data_cached (G := Z) cache1 7 1 1 33 = (Ok df, cache1).
Proof.
  eexists _, _. split; [reflexivity|].
  apply (load_dummy_data_cached_again (G := Z) ∅ 0 7 1 1 33). reflexivity.
Defined.

(** ** Sorting *)

Lemma insert_sorted_perm {A : Type} (leb : A -> A -> bool) (x : A)
    (l : list A) :
  insert_sorted leb x l ≡ₚ x :: l.
Proof.
  induction l as [|y l IH]; simpl; [done|].
  destruct (leb x y); [done|]. rewrite IH. apply Permutation_swap.
Qed.

Lemma sorted_perm {A : Type} (leb : A -> A -> bool) (l : list A) :
  sorted leb l ≡ₚ l.
Proof.
  unfold sorted. induction l as [|x l IH]; simpl; [done|].
  by rewrite insert_sorted_perm, IH.
Qed.

Lemma sorted_In {A : Type} (leb : A -> A -> bool) (l : list A) (x : A) :
  In x (sorted leb l) <-> In x l.
Proof. rewrite <- !list_elem_of_In. by rewrite sorted_perm. Qed.

Lemma sorted_length {A : Type} (leb : A -> A -> bool) (l : list A) :
  length (sorted leb l) = length l.
Proof. by rewrite sorted_perm. Qed.

Section Sorted.
Context {A : Type} (leb : A -> A -> bool).
Hypothesis leb_total : forall x y, leb x y = false -> leb y x = true.
Hypothesis leb_trans :
  forall x y z, leb x y = true -> leb y z = true -> leb x z = true.

Lemma insert_sorted_sorted (x : A) (l : list A) :
  StronglySorted (fun a b => leb a b = true) l ->
  StronglySorted (fun a b => leb a b = true) (insert_sorted leb x l).
Proof.
  induction 1 as [|y l Hl IH Hy]; simpl; [by repeat constructor|].
  destruct (leb x y) eqn:Hxy.
  - constructor; [by constructor|]. constructor; [done|].
    eapply Forall_impl; [exact Hy|]. simpl. intros z Hyz. by eapply leb_trans.
  - constructor; [exact IH|].
    apply Forall_forall. intros z Hz. rewrite insert_sorted_perm in Hz.
    apply elem_of_cons in Hz as [->|Hz]; [by apply leb_total|].
    rewrite Forall_forall in Hy. by apply Hy.
Qed.

Lemma sorted_sorted (l : list A) :
  StronglySorted (fun a b => leb a b = true) (sorted leb l).
Proof.
  unfold sorted. induction l as [|x l IH]; simpl; [constructor|].
  by apply insert_sorted_sorted.
Qed.
End Sorted.

(** Sorting a list that is in order leaves it as it is. *)
Lemma sorted_id {A : Type} (leb : A -> A -> bool) (l : list A) :
  StronglySorted (fun a b => leb a b = true) l -> sorted leb l = l.
Proof.
  unfold sorted. induction 1 as [|x l Hl IH Hx]; simpl; [done|].
  rewrite IH. destruct l as [|y l]; simpl; [done|].
  apply Forall_cons in Hx as [-> _]. done.
Qed.

(** ** The filter and the widgets' defaults *)

Lemma date_min_le (ds : list Z) (lo d : Z) :
  date_min ds = Some lo -> In d ds -> lo <= d.
Proof.
  destruct ds as [|d0 ds]; simpl; [done|]. intros [= <-] Hin.
  assert (foldr Z.min d0 ds <= d0 /\ forall x, In x ds -> foldr Z.min d0 ds <= x)
    as [H0 Hall].
  { clear. induction ds as [|y ds [IH0 IH]]; simpl; [split; [lia|done]|].
    split; [lia|]. intros x [->|Hx]; [lia|]. specialize (IH x Hx). lia. }
  destruct Hin as [<-|Hin]; auto.
Qed.

Lemma date_max_ge (ds : list Z) (hi d : Z) :
  date_max ds = Some hi -> In d ds -> d <= hi.
Proof.
  destruct ds as [|d0 ds]; simpl; [done|]. intros [= <-] Hin.
  assert (d0 <= foldr Z.max d0 ds /\ forall x, In x ds -> x <= foldr Z.max d0 ds)
    as [H0 Hall].
  { clear. induction ds as [|y ds [IH0 IH]]; simpl; [split; [lia|done]|].
    split; [lia|]. intros x [->|Hx]; [lia|]. specialize (IH x Hx). lia. }
  destruct Hin as [<-|Hin]; auto.
Qed.

Lemma isin_course_options (df : DataFrame) (r : Row) :
  In r (rows df) ->
  isin (sorted String.leb (remove_dups (map course (rows df)))) r = true.
Proof.
  intros Hr. unfold isin. apply bool_decide_eq_true.
  apply list_elem_of_In, sorted_In, list_elem_of_In, elem_of_remove_dups.
  by apply list_elem_of_In, in_map.
Qed.

(** X7: The page as it loads: with "From" at the first date, "To" at the last
    and every course option selected (the widgets' defaults), the filter
    keeps all of [data]: the frame in [filtered] has the contents of
    [data]. *)
Theorem default_inputs_keep_all (data : loc) (s : Session) (df : DataFrame)
    (min_date max_date : Z) :
  heap s !! data = Some df ->
  date_min (map date (rows df)) = Some min_date ->
  date_max (map date (rows df)) = Some max_date ->
  exists filtered s',
    apply_filters min_date max_date
      (sorted String.leb (remove_dups (map course (rows df)))) data s =
      Ok (filtered, s') /\
    heap s' !! filtered = Some df.
Proof.
  intros Hdata Hmin Hmax.
  destruct (apply_filters_run min_date max_date
              (sorted String.leb (remove_dups (map course (rows df))))
              data s df Hdata) as (fl & s' & Hrun & _ & Hfl & _).
  exists fl, s'. split; [done|]. rewrite Hfl. f_equal.
  assert (getitem_mask (date_mask min_date max_date) df = df) as Hdates.
  { apply getitem_mask_all. intros r Hr. unfold date_mask.
    apply andb_true_iff. rewrite !Z.leb_le. split.
    - eapply date_min_le; [exact Hmin|]. by apply in_map.
    - eapply date_max_ge; [exact Hmax|]. by apply in_map. }
  unfold filter_frame. rewrite Hdates.
  destruct (sorted String.leb _) eqn:Hopt; [done|]. rewrite <- Hopt.
  apply getitem_mask_all. intros r Hr. by apply isin_course_options.
Qed.

Lemma default_inputs_keep_all_witness :
  exists filtered s',
    apply_filters 5 6 (sorted String.leb (remove_dups ["Course‑1"; "Course‑2"; "Course‑1"]))
      1%positive session0 = Ok (filtered, s') /\
    heap s' !! filtered = Some (Frame [r1; r2; r3]).
Proof.
  apply (default_inputs_keep_all 1%positive session0 (Frame [r1; r2; r3]) 5 6).
  - apply session0_data.
  - reflexivity.
  - reflexivity.
Defined.

(** X8: An empty course selection filters as the selection of every course
    option does: both leave the same contents in [filtered]. *)
Theorem empty_selection_is_all (from_date to_date : Z) (data : loc)
    (s : Session) (df : DataFrame) :
  heap s !! data = Some df ->
  exists filtered1 s1 filtered2 s2 fdf,
    apply_filters from_date to_date [] data s = Ok (filtered1, s1) /\
    apply_filters from_date to_date
      (sorted String.leb (remove_dups (map course (rows df)))) data s =
      Ok (filtered2, s2) /\
    heap s1 !! filtered1 = Some fdf /\
    heap s2 !! filtered2 = Some fdf.
Proof.
  intros Hdata.
  destruct (apply_filters_run from_date to_date [] data s df Hdata)
    as (fl1 & s1 & Hrun1 & _ & Hfl1 & _).
  destruct (apply_filters_run from_date to_date
              (sorted String.leb (remove_dups (map course (rows df))))
              data s df Hdata) as (fl2 & s2 & Hrun2 & _ & Hfl2 & _).
  exists fl1, s1, fl2, s2, (filter_frame from_date to_date [] df).
  split; [done|]. split; [done|]. split; [done|]. rewrite Hfl2. f_equal.
  unfold filter_frame.
  destruct (sorted String.leb _) eqn:Hopt; [done|]. rewrite <- Hopt.
  apply getitem_mask_all. intros r Hr. apply isin_course_options.
  rewrite rows_getitem_mask in Hr. by apply filter_In in Hr as [? _].
Qed.

Lemma empty_selection_is_all_witness :
  exists filtered1 s1 filtered2 s2 fdf,
    apply_filters 6 6 [] 1%positive session0 = Ok (filtered1, s1) /\
    apply_filters 6 6
      (sorted String.leb (remove_dups (map course [r1; r2; r3])))
      1%positive session0 = Ok (filtered2, s2) /\
    heap s1 !! filtered1 = Some fdf /\
    heap s2 !! filtered2 = Some fdf.
Proof.
  apply (empty_selection_is_all 6 6 1%positive session0 (Frame [r1; r2; r3])).
  apply session0_data.
Defined.

(** ** The KPIs *)

Lemma inject_nat_succ (n : nat) :
  inject_Z (Z.of_nat (S n)) = (inject_Z (Z.of_nat n) + 1)%Q.
Proof. by rewrite Nat2Z.inj_succ, <- Z.add_1_r, inject_Z_plus. Qed.

Lemma inject_nat_nonneg (n : nat) : (0 <= inject_Z (Z.of_nat n))%Q.
Proof. unfold Qle. simpl. lia. Qed.

Lemma Qsum_bounds (lo hi : Q) (v : list Q) :
  Forall (fun q => (lo <= q)%Q /\ (q < hi)%Q) v ->
  (lo * inject_Z (Z.of_nat (length v)) <= Qsum v)%Q /\
  (Qsum v <= hi * inject_Z (Z.of_nat (length v)))%Q /\
  (v <> [] -> (Qsum v < hi * inject_Z (Z.of_nat (length v)))%Q).
Proof.
  induction 1 as [|q v [Hlo Hhi] Hv (IHlo & IHle & IHlt)].
  - change (inject_Z (Z.of_nat (length (@nil Q)))) with 0%Q.
    change (Qsum []) with 0%Q.
    split; [lra|]. split; [lra|]. intros Hne. by destruct Hne.
  - change (Qsum (q :: v)) with (q + Qsum v)%Q.
    change (length (q :: v)) with (S (length v)). rewrite inject_nat_succ.
    pose proof (inject_nat_nonneg (length v)) as Hn.
    set (n := inject_Z (Z.of_nat (length v))) in *.
    split; [nra|]. split; [nra|]. intros _. nra.
Qed.

Lemma Qsum_div_bounds (lo hi : Q) (v : list Q) :
  v <> [] -> Forall (fun q => (lo <= q)%Q /\ (q < hi)%Q) v ->
  (lo <= Qsum v / inject_Z (Z.of_nat (length v)))%Q /\
  (Qsum v / inject_Z (Z.of_nat (length v)) < hi)%Q.
Proof.
  intros Hne Hall. destruct (Qsum_bounds lo hi v Hall) as (Hlo & _ & Hlt).
  assert (0 < inject_Z (Z.of_nat (length v)))%Q as Hpos.
  { destruct v; [done|]. unfold Qlt. simpl. lia. }
  split.
  - by apply Qle_shift_div_l.
  - apply Qlt_shift_div_r; [done|]. by apply Hlt.
Qed.

Lemma dropna_in_interval {A : Type} (col : A -> float64) (lo hi : Q)
    (l : list A) :
  Forall (fun a => in_interval lo hi (col a)) l ->
  length (dropna (map col l)) = length l /\
  Forall (fun q => (lo <= q)%Q /\ (q < hi)%Q) (dropna (map col l)).
Proof.
  unfold dropna. induction 1 as [|a l Ha Hl [IHlen IH]]; simpl; [done|].
  destruct (col a) as [q|]; [|done]. simpl in *.
  split; [by f_equal|by constructor].
Qed.

Lemma mean_in_interval {A : Type} (col : A -> float64) (lo hi : Q)
    (l : list A) :
  l <> [] -> Forall (fun a => in_interval lo hi (col a)) l ->
  in_interval lo hi (mean (map col l)).
Proof.
  intros Hne Hall. destruct (dropna_in_interval col lo hi l Hall) as [Hlen Hv].
  unfold mean. destruct (dropna (map col l)) as [|q v] eqn:Hd.
  - destruct l; [done|]. discriminate.
  - by apply Qsum_div_bounds.
Qed.

Lemma Forall_sorted {A : Type} (P : A -> Prop) (leb : A -> A -> bool)
    (l : list A) :
  Forall P l -> Forall P (sorted leb l).
Proof. by rewrite sorted_perm. Qed.

Lemma median_in_interval {A : Type} (col : A -> float64) (lo hi : Q)
    (l : list A) :
  l <> [] -> Forall (fun a => in_interval lo hi (col a)) l ->
  in_interval lo hi (median (map col l)).
Proof.
  intros Hne Hall. destruct (dropna_in_interval col lo hi l Hall) as [Hlen Hv].
  unfold median.
  set (v := sorted Qle_bool (dropna (map col l))).
  assert (Forall (fun q => (lo <= q)%Q /\ (q < hi)%Q) v) as Hsorted
    by by apply Forall_sorted.
  assert (0 < length v)%nat as Hpos.
  { unfold v. rewrite sorted_length, Hlen. destruct l; [done|]. simpl. lia. }
  pose proof (proj1 (Forall_nth _ 0%Q v) Hsorted) as Hnth. simpl in Hnth.
  assert (length v / 2 < length v)%nat as Hmid by (apply Nat.div_lt; lia).
  destruct v as [|q v'] eqn:Hveq; [simpl in Hpos; lia|]. rewrite <- Hveq in *.
  destruct (Nat.odd (length v)).
  - by apply Hnth.
  - destruct (Hnth (length v / 2)%nat Hmid) as [Hlo2 Hhi2].
    destruct (Hnth (length v / 2 - 1)%nat ltac:(lia)) as [Hlo1 Hhi1].
    unfold in_interval. split.
    + apply Qle_shift_div_l; [done|]. lra.
    + apply Qlt_shift_div_r; [done|]. lra.
Qed.

Lemma nunique_bounds (xs : list Z) :
  xs <> [] -> 1 <= nunique xs <= Z.of_nat (length xs).
Proof.
  intros Hne. unfold nunique. split.
  - destruct xs as [|x xs]; [done|].
    assert (x ∈ remove_dups (x :: xs)) as Hx
      by (apply elem_of_remove_dups; by left).
    destruct (remove_dups (x :: xs)); [by apply elem_of_nil in Hx|].
    simpl. lia.
  - apply inj_le, submseteq_length, NoDup_submseteq.
    + apply NoDup_remove_dups.
    + intros x. by rewrite elem_of_remove_dups.
Qed.

Lemma Qsum_unit (bs : list bool) :
  (0 <= Qsum (map (fun b : bool => if b then 1%Q else 0%Q) bs))%Q /\
  (Qsum (map (fun b : bool => if b then 1%Q else 0%Q) bs) <=
   inject_Z (Z.of_nat (length bs)))%Q.
Proof.
  induction bs as [|b bs [IHlo IHhi]].
  - change ((0 <= 0)%Q /\ (0 <= 0)%Q). split; lra.
  - change (length (b :: bs)) with (S (length bs)). rewrite inject_nat_succ.
    cbn [map].
    set (v := map (fun b : bool => if b then 1%Q else 0%Q) bs) in *.
    match goal with
    | |- context [Qsum (?x :: v)] => change (Qsum (x :: v)) with (x + Qsum v)%Q
    end.
    destruct b; split; lra.
Qed.

Lemma mean_unit (bs : list bool) :
  bs <> [] ->
  exists q,
    mean (map bool_to_float bs) = Finite q /\ (0 <= q)%Q /\ (q <= 1)%Q.
Proof.
  intros Hne.
  assert (dropna (map bool_to_float bs) =
          map (fun b : bool => if b then 1%Q else 0%Q) bs) as Hd.
  { clear. unfold dropna, bool_to_float.
    induction bs as [|b bs IH]; simpl; [done|]. f_equal. exact IH. }
  destruct (Qsum_unit bs) as [Hlo Hhi].
  unfold mean. rewrite Hd.
  assert (length (map (fun b : bool => if b then 1%Q else 0%Q) bs) =
          length bs) as Hlen by apply length_map.
  destruct (map (fun b : bool => if b then 1%Q else 0%Q) bs) as [|q v] eqn:Hv.
  - destruct bs; [done|discriminate].
  - eexists. split; [reflexivity|]. rewrite Hlen.
    assert (0 < inject_Z (Z.of_nat (length bs)))%Q as Hpos.
    { destruct bs; [done|]. unfold Qlt. simpl. lia. }
    split.
    + apply Qle_shift_div_l; [done|]. lra.
    + apply Qle_shift_div_r; [done|]. lra.
Qed.

(** X9: The completion rate is a percentage on every frame, the empty one
    included: a number between 0 and 100, never NaN. *)
Theorem completion_rate_percent (filtered : loc) (s : Session)
    (f : DataFrame) :
  heap s !! filtered = Some f ->
  exists k s' q,
    kpis filtered s = Ok (k, s') /\
    completion_rate k = Finite q /\ (0 <= q)%Q /\ (q <= 100)%Q.
Proof.
  intros Hf. destruct (kpis_run filtered s f Hf) as (s' & Hrun & _).
  unfold empty in Hrun. destruct (rows f) as [|r rs] eqn:Hrows.
  - eexists _, s', _. split; [exact Hrun|]. simpl. split; [done|]. lra.
  - destruct (mean_unit (map completed (r :: rs))) as (q & Hq & Hlo & Hhi);
      [done|].
    rewrite map_map in Hq.
    eexists _, s', _. split; [exact Hrun|]. cbn [completion_rate negb].
    rewrite Hq. cbn [fmul]. split; [reflexivity|]. lra.
Qed.

Lemma completion_rate_percent_witness :
  exists k s' q,
    kpis 1%positive session0 = Ok (k, s') /\
    completion_rate k = Finite q /\ (0 <= q)%Q /\ (q <= 100)%Q.
Proof.
  apply (completion_rate_percent 1%positive session0 (Frame [r1; r2; r3])).
  apply session0_data.
Defined.

(** X10: On a frame with rows whose sessions are in [3, 45) and whose scores
    are in [40, 100), no KPI is NaN: the median session is in [3, 45), the mean quiz
    score in [40, 100), and the distinct students are at least one and at
    most the number of rows. *)
Theorem kpis_of_generated_rows (filtered : loc) (s : Session) (f : DataFrame) :
  heap s !! filtered = Some f ->
  rows f <> [] ->
  Forall (fun r => in_interval 3 45 (session_minutes r) /\
                   in_interval 40 100 (quiz_score r)) (rows f) ->
  exists k s',
    kpis filtered s = Ok (k, s') /\
    in_interval 3 45 (median_session k) /\
    in_interval 40 100 (mean_quiz k) /\
    1 <= dau k <= Z.of_nat (length (rows f)).
Proof.
  intros Hf Hne Hall. destruct (kpis_run filtered s f Hf) as (s' & Hrun & _).
  eexists _, s'. split; [exact Hrun|]. simpl. split; [|split].
  - apply median_in_interval; [done|].
    eapply Forall_impl; [exact Hall|]. by intros r [? _].
  - apply mean_in_interval; [done|].
    eapply Forall_impl; [exact Hall|]. by intros r [_ ?].
  - rewrite <- (length_map student_id). apply nunique_bounds.
    by destruct (rows f).
Qed.

Lemma kpis_of_generated_rows_witness :
  exists k s',
    kpis 1%positive session0 = Ok (k, s') /\
    in_interval 3 45 (median_session k) /\
    in_interval 40 100 (mean_quiz k) /\
    1 <= dau k <= Z.of_nat (length [r1; r2; r3]).
Proof.
  apply (kpis_of_generated_rows 1%positive session0 (Frame [r1; r2; r3])).
  - apply session0_data.
  - discriminate.
  - repeat constructor; vm_compute; congruence.
Defined.

(** ** The charts *)

Lemma sorted_map_key {A B : Type} (R1 : A -> A -> Prop) (R2 : B -> B -> Prop)
    (g : A -> B) (l : list A) :
  (forall x y, R1 x y -> R2 (g x) (g y)) ->
  StronglySorted R1 l -> StronglySorted R2 (map g l).
Proof.
  intros Hg. induction 1 as [|x l Hl IH Hx]; simpl; constructor; [done|].
  apply Forall_forall. intros y Hy%list_elem_of_In.
  apply in_map_iff in Hy as (a & <- & Ha). apply Hg.
  rewrite Forall_forall in Hx. by apply Hx, list_elem_of_In.
Qed.

Lemma sorted_NoDup_strict (l : list Z) :
  StronglySorted (fun a b => (a <=? b) = true) l -> NoDup l ->
  StronglySorted Z.lt l.
Proof.
  induction 1 as [|x l Hl IH Hx]; intros Hnd; constructor.
  - apply IH. by apply NoDup_cons in Hnd as [_ ?].
  - apply NoDup_cons in Hnd as [Hfresh _].
    apply Forall_forall. intros y Hy. rewrite Forall_forall in Hx.
    specialize (Hx y Hy). apply Z.leb_le in Hx.
    assert (x <> y) by (by intros ->). lia.
Qed.

Lemma distinct_dates_sorted (ds : list Z) :
  StronglySorted (fun a b => (a <=? b) = true) (sorted Z.leb (remove_dups ds)) /\
  NoDup (sorted Z.leb (remove_dups ds)) /\
  forall d, In d (sorted Z.leb (remove_dups ds)) <-> In d ds.
Proof.
  split; [|split].
  - apply sorted_sorted.
    + intros x y Hxy. apply Z.leb_gt in Hxy. apply Z.leb_le. lia.
    + intros x y z Hxy%Z.leb_le Hyz%Z.leb_le. apply Z.leb_le. lia.
  - rewrite sorted_perm. apply NoDup_remove_dups.
  - intros d. rewrite sorted_In, <- !list_elem_of_In.
    apply elem_of_remove_dups.
Qed.

Lemma nunique_subset (xs ys : list Z) :
  (forall x, In x xs -> In x ys) -> nunique xs <= nunique ys.
Proof.
  intros Hsub. unfold nunique.
  apply inj_le, submseteq_length, NoDup_submseteq; [apply NoDup_remove_dups|].
  intros x. rewrite !elem_of_remove_dups, !list_elem_of_In. apply Hsub.
Qed.

(** X11: The line chart of active users has one point per date that occurs in
    [filtered], dates strictly ascending, and each point counts at least one
    student and at most the students of the whole frame. *)
Theorem active_daily_points (observed : bool) (filtered : loc) (s : Session)
    (f : DataFrame) :
  heap s !! filtered = Some f ->
  exists out s',
    charts observed filtered s = Ok (out, s') /\
    StronglySorted Z.lt (map fst out.1) /\
    (forall d, In d (map fst out.1) <-> In d (map date (rows f))) /\
    Forall (fun dn => 1 <= dn.2 <= nunique (map student_id (rows f))) out.1.
Proof.
  intros Hf. destruct (charts_run observed filtered s f Hf) as (s' & Hrun & _).
  eexists _, s'. split; [exact Hrun|]. cbn [fst].
  destruct (distinct_dates_sorted (map date (rows f)))
    as (Hsorted & Hnd & Hin).
  unfold groupby_date_nunique.
  set (L := sorted Z.leb (remove_dups (map date (rows f)))) in *.
  set (g := fun d : Z =>
              (d, nunique (map student_id
                             (List.filter (fun r => date r =? d) (rows f))))).
  rewrite (sorted_id _ (map g L))
    by (by apply (sorted_map_key (fun a b => (a <=? b) = true))).
  assert (map fst (map g L) = L) as Hfst.
  { rewrite map_map. simpl. apply map_id. }
  rewrite Hfst. split; [by apply sorted_NoDup_strict|]. split; [exact Hin|].
  apply Forall_forall. intros dn Hdn%list_elem_of_In.
  apply in_map_iff in Hdn as (d & <- & Hd). simpl.
  apply Hin, in_map_iff in Hd as (r & Hr & Hrin). split.
  - apply nunique_bounds.
    assert (In r (List.filter (fun r => date r =? d) (rows f))) as Hrf
      by (apply filter_In; split; [done|]; apply Z.eqb_eq; exact Hr).
    destruct (List.filter _ (rows f)); [done|discriminate].
  - apply nunique_subset. intros x Hx.
    apply in_map_iff in Hx as (r' & <- & Hr').
    apply filter_In in Hr' as [Hr' _]. by apply in_map.
Qed.

Lemma active_daily_points_witness :
  exists out s',
    charts false 1%positive session0 = Ok (out, s') /\
    StronglySorted Z.lt (map fst out.1) /\
    (forall d, In d (map fst out.1) <-> In d (map date [r1; r2; r3])) /\
    Forall (fun dn => 1 <= dn.2 <= nunique (map student_id [r1; r2; r3]))
      out.1.
Proof.
  apply (active_daily_points false 1%positive session0 (Frame [r1; r2; r3])).
  apply session0_data.
Defined.

Lemma in_interval_oc_iff (c : Interval) (x : float64) :
  in_interval_oc c x = true <->
  exists q, x = Finite q /\
    (inject_Z (left c) < q)%Q /\ (q <= inject_Z (right c))%Q.
Proof.
  destruct x as [q|]; simpl.
  - unfold Qltb. rewrite andb_true_iff, negb_true_iff, Qle_bool_iff.
    rewrite <- not_true_iff_false, Qle_bool_iff. split.
    + intros [Hlt Hle]. exists q. split; [done|]. split; [lra|done].
    + intros (q' & [= <-] & Hlt & Hle). split; [lra|done].
  - split; [done|]. by intros (q & Hq & _).
Qed.

Lemma cut_value_in_buckets (x : float64) (c : Interval) :
  cut_value bins x = Some c -> In c buckets.
Proof.
  destruct x as [q|]; [|done].
  unfold cut_value, searchsorted_left, bins, Qltb. cbn [List.filter].
  repeat match goal with
    | |- context [Qle_bool ?a ?b] => destruct (Qle_bool a b)
    end;
    simpl; intros [= <-]; tauto.
Qed.

(** X12: The cut of the session lengths: a value gets the bucket (left, right]
    it lies in, and gets none exactly when it is NaN, at most 0 or above
    60. *)
Theorem cut_value_spec (x : float64) (c : Interval) :
  (cut_value bins x = Some c <->
   In c buckets /\
   exists q, x = Finite q /\
     (inject_Z (left c) < q)%Q /\ (q <= inject_Z (right c))%Q) /\
  (cut_value bins x = None <->
   x = NaN \/ exists q, x = Finite q /\ ((q <= 0)%Q \/ (60 < q)%Q)).
Proof.
  assert (forall c', cut_value bins x = Some c' <->
            In c' buckets /\ in_interval_oc c' x = true) as Hsome.
  { intros c'. split.
    - intros Hcut. pose proof (cut_value_in_buckets x c' Hcut) as Hin.
      split; [done|]. rewrite <- (cut_value_bucket x c' Hin).
      by apply bool_decide_eq_true.
    - intros [Hin Hoc]. rewrite <- (cut_value_bucket x c' Hin) in Hoc.
      by apply bool_decide_eq_true in Hoc. }
  split.
  - rewrite Hsome. by rewrite in_interval_oc_iff.
  - destruct x as [q|]; [|split; [by left|done]]. split.
    + intros Hnone. right. exists q. split; [done|].
      destruct (Qlt_le_dec 0 q) as [H0|H0]; [|by left].
      destruct (Qlt_le_dec 60 q) as [H60|H60]; [by right|].
      exfalso.
      assert (exists c', In c' buckets /\
                in_interval_oc c' (Finite q) = true) as (c' & Hc').
      { destruct (Qlt_le_dec 5 q) as [H5|H5];
          [|exists (mkInterval 0 5); split;
            [simpl; tauto|apply in_interval_oc_iff; exists q; simpl;
                          unfold inject_Z; repeat split; lra]].
        destruct (Qlt_le_dec 10 q) as [H10|H10];
          [|exists (mkInterval 5 10); split;
            [simpl; tauto|apply in_interval_oc_iff; exists q; simpl;
                          unfold inject_Z; repeat split; lra]].
        destruct (Qlt_le_dec 20 q) as [H20|H20];
          [|exists (mkInterval 10 20); split;
            [simpl; tauto|apply in_interval_oc_iff; exists q; simpl;
                          unfold inject_Z; repeat split; lra]].
        destruct (Qlt_le_dec 30 q) as [H30|H30];
          [|exists (mkInterval 20 30); split;
            [simpl; tauto|apply in_interval_oc_iff; exists q; simpl;
                          unfold inject_Z; repeat split; lra]].
        exists (mkInterval 30 60). split; [simpl; tauto|].
        apply in_interval_oc_iff. exists q. simpl. unfold inject_Z.
        repeat split; lra. }
      apply Hsome in Hc'. congruence.
    + intros [Hnan|(q' & [= <-] & Hout)]; [done|].
      destruct (cut_value bins (Finite q)) as [c'|] eqn:Hcut; [|done].
      exfalso. destruct (proj1 (Hsome c') eq_refl) as [Hin Hoc].
      apply in_interval_oc_iff in Hoc as (q' & [= <-] & Hlt & Hle).
      simpl in Hin.
      destruct Hin as [<-|[<-|[<-|[<-|[<-|[]]]]]]; simpl in Hlt, Hle;
        unfold inject_Z in Hlt, Hle; destruct Hout; lra.
Qed.

(** X13: Drawing the charts a second time on the same [filtered] object: the
    [session_bucket] column is replaced by an equal one, the outputs are
    the same and the heap does not change any more. *)
Theorem charts_again (observed : bool) (filtered : loc) (s : Session)
    (f : DataFrame) :
  heap s !! filtered = Some f ->
  exists out s1 s2,
    charts observed filtered s = Ok (out, s1) /\
    charts observed filtered s1 = Ok (out, s2) /\
    heap s2 = heap s1.
Proof.
  intros Hf.
  destruct (charts_run observed filtered s f Hf) as (s1 & Hrun1 & Hheap1 & _).
  set (col := codes (cut (map session_minutes (rows f)) bins)) in *.
  set (B := BucketFrame (intervals bins) (zip (rows f) col)) in *.
  assert (heap s1 !! filtered = Some B) as Hf1
    by (rewrite Hheap1; apply lookup_insert_eq).
  destruct (charts_run observed filtered s1 B Hf1) as (s2 & Hrun2 & Hheap2 & _).
  assert (rows B = rows f) as Hrows.
  { unfold B. cbn [rows]. apply zip_fst_snd. unfold col.
    rewrite cut_length. apply length_map. }
  rewrite Hrows in Hrun2, Hheap2. fold col in Hheap2. fold B in Hheap2.
  eexists _, s1, s2. split; [exact Hrun1|]. split; [exact Hrun2|].
  rewrite Hheap2, Hheap1. apply insert_insert_eq.
Qed.

Lemma charts_again_witness :
  exists out s1 s2,
    charts true 1%positive session0 = Ok (out, s1) /\
    charts true 1%positive s1 = Ok (out, s2) /\
    heap s2 = heap s1.
Proof.
  apply (charts_again true 1%positive session0 (Frame [r1; r2; r3])).
  apply session0_data.
Defined.

(** ** The widgets of the page *)

Lemma kpis_log (filtered : loc) (s : Session) (f : DataFrame) :
  heap s !! filtered = Some f ->
  exists k s' w,
    kpis filtered s = Ok (k, s') /\
    ui s' = ui s ++ w /\ Forall (fun x => ~ is_error x) w.
Proof.
  intros Hf. unfold kpis.
  repeat (rewrite (bind_ok _ _ _ _ _ (emit_run _ _))).
  erewrite bind_ok; [|by apply frame_run].
  repeat (rewrite (bind_ok _ _ _ _ _ (emit_run _ _))).
  eexists _, _, _. split; [reflexivity|]. cbn [ui].
  split; [rewrite <- !app_assoc; reflexivity|].
  repeat constructor; by intros [].
Qed.

Lemma charts_log (observed : bool) (filtered : loc) (s : Session)
    (f : DataFrame) :
  heap s !! filtered = Some f ->
  exists out s' w,
    charts observed filtered s = Ok (out, s') /\
    ui s' = ui s ++ w /\ Forall (fun x => ~ is_error x) w.
Proof.
  intros Hf. unfold charts.
  erewrite bind_ok; [|by apply frame_run].
  repeat (rewrite (bind_ok _ _ _ _ _ (emit_run _ _))).
  fold bins.
  assert (length (codes (cut (map session_minutes (rows f)) bins)) =
          length (rows f)) as Hlen by (rewrite cut_length; apply length_map).
  erewrite bind_ok; [|by apply setitem_session_bucket_run].
  erewrite bind_ok;
    [|apply getitem_session_bucket_run; simpl; apply lookup_insert_eq].
  erewrite bind_ok; [|apply frame_run; simpl; apply lookup_insert_eq].
  repeat (rewrite (bind_ok _ _ _ _ _ (emit_run _ _))).
  eexists _, _, _. split; [reflexivity|]. cbn [ui].
  split; [rewrite <- !app_assoc; reflexivity|].
  repeat constructor; by intros [].
Qed.

Lemma check_dates_log (inp : Inputs) (s : Session) :
  exists s' w,
    (if from_date inp >? to_date inp
     then emit (SidebarError error_text) else ret tt) s = Ok (tt, s') /\
    heap s' = heap s /\ ui s' = ui s ++ w /\
    (from_date inp > to_date inp -> w = [SidebarError error_text]) /\
    (from_date inp <= to_date inp -> w = []).
Proof.
  destruct (Z.gtb_spec (from_date inp) (to_date inp)) as [Hgt|Hle].
  - eexists _, _. split; [reflexivity|]. split; [done|]. split; [done|].
    split; [done|]. lia.
  - exists s, []. split; [done|]. split; [done|].
    split; [by rewrite app_nil_r|]. split; [lia|done].
Qed.

(** X14: The page shows the message about the dates exactly when "From" is
    after "To"; with the dates in order no sidebar error is among the
    widgets it adds. *)
Theorem sidebar_error_iff (observed : bool) (inp : Inputs) (data : loc)
    (s : Session) (df : DataFrame) :
  heap s !! data = Some df ->
  exists out s' w,
    dashboard observed inp data s = Ok (out, s') /\
    ui s' = ui s ++ w /\
    (In (SidebarError error_text) w <-> from_date inp > to_date inp) /\
    (from_date inp <= to_date inp -> Forall (fun x => ~ is_error x) w).
Proof.
  intros Hdata. unfold dashboard.
  rewrite (bind_ok _ _ _ _ _ (emit_run _ _)).
  erewrite bind_ok; [|by apply frame_run].
  repeat (rewrite (bind_ok _ _ _ _ _ (emit_run _ _))).
  fold error_text.
  match goal with
  | |- context [bind (if _ then _ else _) _ ?st] =>
      destruct (check_dates_log inp st)
        as (s1 & w1 & Hrun1 & Hheap1 & Hui1 & Hgt1 & Hle1)
  end.
  cbn [heap ui] in Hheap1, Hui1.
  rewrite (bind_ok _ _ _ _ _ Hrun1).
  rewrite (bind_ok _ _ _ _ _ (emit_run _ _)).
  match goal with
  | |- context [bind (apply_filters _ _ _ _) _ ?st] => set (s2 := st)
  end.
  assert (heap s2 !! data = Some df) as Hdata2 by (simpl; congruence).
  destruct (apply_filters_run (from_date inp) (to_date inp)
              (selected_courses inp) data s2 df Hdata2)
    as (fl & s3 & Hrun3 & _ & Hfl3 & _ & Hui3).
  rewrite (bind_ok _ _ _ _ _ Hrun3).
  destruct (kpis_log fl s3 _ Hfl3) as (k & s4 & w4 & Hrun4 & Hui4 & Hw4).
  rewrite (bind_ok _ _ _ _ _ Hrun4).
  destruct (kpis_run fl s3 _ Hfl3) as (s4' & Hrun4' & Hheap4 & _).
  rewrite Hrun4 in Hrun4'. injection Hrun4' as _ <-.
  assert (heap s4 !! fl = Some (filter_frame (from_date inp) (to_date inp)
                                  (selected_courses inp) df))
    as Hfl4 by congruence.
  destruct (charts_log observed fl s4 _ Hfl4)
    as (ch & s5 & w5 & Hrun5 & Hui5 & Hw5).
  rewrite (bind_ok _ _ _ _ _ Hrun5).
  rewrite (bind_ok _ _ _ _ _ (emit_run _ _)).
  eexists _, _, _. split; [reflexivity|]. cbn [ui].
  rewrite Hui5, Hui4, Hui3. unfold s2. cbn [ui]. rewrite Hui1.
  split; [rewrite <- !app_assoc; reflexivity|].
  assert (forall w, Forall (fun x => ~ is_error x) w ->
            ~ In (SidebarError error_text) w) as Hnot.
  { intros w Hw Hin. rewrite Forall_forall in Hw.
    by apply (Hw _ (proj2 (list_elem_of_In _ _) Hin)). }
  split; [split|].
  - intros Hin. destruct (Z.le_gt_cases (from_date inp) (to_date inp))
      as [Hle|Hgt]; [|lia].
    exfalso. rewrite (Hle1 Hle) in Hin. simpl in Hin.
    destruct Hin as [Hin|[Hin|[Hin|[Hin|Hin]]]]; try discriminate.
    apply in_app_or in Hin as [Hin|Hin]; [by apply (Hnot w4)|].
    apply in_app_or in Hin as [Hin|[Hin|[]]]; [by apply (Hnot w5)|].
    discriminate.
  - intros Hgt. rewrite (Hgt1 Hgt). simpl. tauto.
  - intros Hle. rewrite (Hle1 Hle). simpl.
    repeat (apply Forall_cons; split; [by intros []|]).
    apply Forall_app. split; [done|]. apply Forall_app. split; [done|].
    repeat constructor. by intros [].
Qed.

Lemma sidebar_error_iff_witness :
  exists out s' w,
    dashboard false (mkInputs 5 6 []) 1%positive session0 = Ok (out, s') /\
    ui s' = ui session0 ++ w /\
    (In (SidebarError error_text) w <-> 5 > 6) /\
    (5 <= 6 -> Forall (fun x => ~ is_error x) w).
Proof.
  apply (sidebar_error_iff false (mkInputs 5 6 []) 1%positive session0
           (Frame [r1; r2; r3])).
  apply session0_data.
Defined.

Lemma app_run_witness :
  exists df out s' data,
    load_dummy_data (G := Z) 0 90 5 400 = Ok df /\
    app (G := Z) false 0 (mkInputs 0 0 []) = Ok (out, s') /\
    heap s' !! data = Some df /\ data <> filtered out.
Proof.
  apply (app_run (G := Z) false 0 (mkInputs 0 0 [])).
Defined.
